(** * atomic_agents: the YouTube transcript tool and the agent execution loop

    A shallow embedding of [atomic_agents/lib/tools/yt_transcript_scraper_tool.py]
    and of the framework contracts it is written against (schema contract,
    tool contract, agent execution loop).

    Python values are dynamically typed, so the embedding works over a small
    universe [pyval] of JSON-like values; exceptions are results of an error
    monad; the attributes of [self], the calls made to external services and
    the answers of those services are threaded explicitly. *)

From Stdlib Require Import ZArith String Ascii List Floats Lia.
From stdpp Require Import gmap strings list.
From Equations Require Import Equations.
From Equations.Prop Require Import Logic.

Set Warnings "-register-all".

Open Scope string_scope.
Open Scope list_scope.

(** ** Exceptions and results *)

(** A raised Python exception: the name of its class and [str(e)]. *)
Record exn := mkExn { exn_class : string; exn_msg : string }.

Inductive result (A : Type) : Type :=
| Ok (a : A)
| Raise (e : exn).
Arguments Ok {A} a.
Arguments Raise {A} e.

Definition rbind {A B} (r : result A) (k : A -> result B) : result B :=
  match r with
  | Ok a => k a
  | Raise e => Raise e
  end.

Fixpoint rmapM {A B} (f : A -> result B) (l : list A) : result (list B) :=
  match l with
  | [] => Ok []
  | x :: l' => rbind (f x) (fun y => rbind (rmapM f l') (fun ys => Ok (y :: ys)))
  end.

Definition is_ok {A} (r : result A) : bool :=
  match r with Ok _ => true | Raise _ => false end.

(** ** Python values *)

Inductive pyval :=
| VNone
| VBool (b : bool)
| VInt (z : Z)
| VFloat (f : float)
| VStr (s : string)
| VList (l : list pyval)
| VDict (d : gmap string pyval).

(** [bool(v)], as used by [if v:] and [not v]. *)
Definition py_truthy (v : pyval) : bool :=
  match v with
  | VNone => false
  | VBool b => b
  | VInt z => negb (z =? 0)%Z
  | VFloat f => negb (PrimFloat.eqb f 0%float)
  | VStr s => negb (String.eqb s "")
  | VList l => match l with [] => false | _ => true end
  | VDict d => negb (bool_decide (d = ∅))
  end.

Definition type_name (v : pyval) : string :=
  match v with
  | VNone => "NoneType"
  | VBool _ => "bool"
  | VInt _ => "int"
  | VFloat _ => "float"
  | VStr _ => "str"
  | VList _ => "list"
  | VDict _ => "dict"
  end.

(** [v[key]] for a string key. *)
Definition py_getitem (v : pyval) (key : string) : result pyval :=
  match v with
  | VDict d =>
      match d !! key with
      | Some x => Ok x
      | None => Raise (mkExn "KeyError" key)
      end
  | VList _ | VStr _ => Raise (mkExn "TypeError" "indices must be integers")
  | _ => Raise (mkExn "TypeError" "object is not subscriptable")
  end.

(** [v[0]]. *)
Definition py_getitem0 (v : pyval) : result pyval :=
  match v with
  | VList l =>
      match l with
      | x :: _ => Ok x
      | [] => Raise (mkExn "IndexError" "list index out of range")
      end
  | VStr s =>
      match s with
      | String c _ => Ok (VStr (String c ""))
      | EmptyString => Raise (mkExn "IndexError" "string index out of range")
      end
  | VDict _ => Raise (mkExn "KeyError" "0")
  | _ => Raise (mkExn "TypeError" "object is not subscriptable")
  end.

(** The elements a [for] clause iterates over. A mapping yields its keys;
    the order is immaterial here, since the tool subscripts every element
    with a string, which fails on any key. *)
Definition py_iter (v : pyval) : result (list pyval) :=
  match v with
  | VList l => Ok l
  | VStr s => Ok (map (fun c => VStr (String c "")) (list_ascii_of_string s))
  | VDict d => Ok (map (fun kv => VStr (fst kv)) (map_to_list d))
  | _ => Raise (mkExn "TypeError" "object is not iterable")
  end.

(** *** Numbers *)

(** [float(z)]: round to nearest, [OverflowError] beyond the double range. *)
Definition float_of_Z (z : Z) : result float :=
  let f := SF2Prim (binary_normalize prec emax z 0 false) in
  if PrimFloat.is_infinity f
  then Raise (mkExn "OverflowError" "int too large to convert to float")
  else Ok f.

Definition Z_of_bool (b : bool) : Z := if b then 1%Z else 0%Z.

(** [a + b] on numbers ([bool] is a subclass of [int]); anything else that can
    come out of JSON does not add to a number. *)
Definition py_add_num (a b : pyval) : result pyval :=
  let bad := Raise (mkExn "TypeError" "unsupported operand type(s) for +") in
  let as_num v :=
    match v with
    | VBool b => Some (inl (Z_of_bool b))
    | VInt z => Some (inl z)
    | VFloat f => Some (inr f)
    | _ => None
    end in
  match as_num a, as_num b with
  | Some (inl x), Some (inl y) => Ok (VInt (x + y))
  | Some (inl x), Some (inr g) => rbind (float_of_Z x) (fun f => Ok (VFloat (f + g)%float))
  | Some (inr f), Some (inl y) => rbind (float_of_Z y) (fun g => Ok (VFloat (f + g)%float))
  | Some (inr f), Some (inr g) => Ok (VFloat (f + g)%float)
  | _, _ => bad
  end.

(** The interpreter the program runs on, as far as the tool can tell one
    from another: the builtin [sum] adds floats one by one up to CPython 3.11,
    and with a correction of the rounding errors (Neumaier's variant of Kahan
    summation) from CPython 3.12 on. *)
Inductive interpreter :=
| CPython311
| CPython312.

(** Whether an [int] fits a C [long] (64 bits): [sum] keeps its running total
    in a C variable as long as it does. *)
Definition fits_long (z : Z) : bool :=
  (- 2 ^ 63 <=? z)%Z && (z <? 2 ^ 63)%Z.

(** The running total of [sum] in CPython 3.12: a C [long] while only ints
    have been met; a C [double] with the compensation [c] once the total is a
    float; an object, added to with [+], after an item that fits neither. *)
Inductive sum_total :=
| IntTotal (i : Z)
| FloatTotal (f c : float)
| ObjectTotal (v : pyval).

(** The total that ends the float loop: the compensation is added unless it
    is zero, infinite or not a number. *)
Definition compensated (f c : float) : float :=
  if negb (PrimFloat.eqb c 0) && PrimFloat.is_finite c then (f + c)%float else f.

(** One item of [sum] in CPython 3.12. In the int loop an [int] or [bool] is
    added to the C total when nothing overflows; any other item is added with
    [+], and the float loop is entered when that gives a float. In the float
    loop a float is added by
    [t = f + x; c += fabs(f) >= fabs(x) ? (f - t) + x : (x - t) + f; f = t],
    an int that fits a [long] by [f += (double)value], and any other item
    ends the loop: it is added with [+] to the compensated total. *)
Definition sum_add (total : sum_total) (item : pyval) : result sum_total :=
  let enter v :=
    match v with
    | VFloat f => FloatTotal f 0
    | _ => ObjectTotal v
    end in
  let as_int v :=
    match v with
    | VBool b => Some (Z_of_bool b)
    | VInt z => Some z
    | _ => None
    end in
  match total with
  | IntTotal i =>
      match as_int item with
      | Some z =>
          if fits_long z && fits_long (i + z)
          then Ok (IntTotal (i + z))
          else Ok (ObjectTotal (VInt (i + z)))
      | None => rbind (py_add_num (VInt i) item) (fun v => Ok (enter v))
      end
  | FloatTotal f c =>
      match item with
      | VFloat x =>
          let t := (f + x)%float in
          if PrimFloat.leb (PrimFloat.abs x) (PrimFloat.abs f)
          then Ok (FloatTotal t (c + ((f - t) + x))%float)
          else Ok (FloatTotal t (c + ((x - t) + f))%float)
      | _ =>
          match as_int item with
          | Some z =>
              if fits_long z
              then rbind (float_of_Z z) (fun g => Ok (FloatTotal (f + g)%float c))
              else rbind (py_add_num (VFloat (compensated f c)) item)
                         (fun v => Ok (ObjectTotal v))
          | None =>
              rbind (py_add_num (VFloat (compensated f c)) item)
                    (fun v => Ok (ObjectTotal v))
          end
      end
  | ObjectTotal v => rbind (py_add_num v item) (fun v' => Ok (ObjectTotal v'))
  end.

(** What [sum] returns when the items are exhausted. *)
Definition sum_result (total : sum_total) : pyval :=
  match total with
  | IntTotal i => VInt i
  | FloatTotal f c => VFloat (compensated f c)
  | ObjectTotal v => v
  end.

(** [sum(l)]: the items are added from left to right, starting from the
    integer [0]. Up to CPython 3.11 every step is the addition [+] of the
    total and the item (the C variables of the implementation hold the same
    values); from 3.12 on floats are added with compensation. For a list that
    mixes ints and floats the second case follows CPython 3.12. *)
Definition py_sum (py : interpreter) (l : list pyval) : result pyval :=
  match py with
  | CPython311 =>
      fold_left (fun acc x => rbind acc (fun a => py_add_num a x)) l (Ok (VInt 0))
  | CPython312 =>
      rbind (fold_left (fun acc x => rbind acc (fun total => sum_add total x)) l
               (Ok (IntTotal 0)))
            (fun total => Ok (sum_result total))
  end.

(** ** Strings

    A [str] is modelled by its UTF-8 bytes; the separators the tool uses are
    ASCII, so splitting bytes and splitting code points agree. *)

(** [s] without its prefix [p], when it has that prefix. *)
Fixpoint strip_prefix (p s : string) : option string :=
  match p, s with
  | EmptyString, _ => Some s
  | String a p', String b s' => if Ascii.eqb a b then strip_prefix p' s' else None
  | String _ _, EmptyString => None
  end.

Lemma strip_prefix_length p s r :
  strip_prefix p s = Some r -> String.length s = (String.length p + String.length r)%nat.
Proof.
  revert s. induction p as [|a p IH]; intros [|b s] H; simpl in *;
    try discriminate; try (injection H as <-; reflexivity).
  destruct (Ascii.eqb a b); [|discriminate].
  rewrite (IH _ H). reflexivity.
Qed.

(** The scan of [str.split(sep)] for a non-empty separator [String c0 sep']:
    [cur] holds the piece read so far; at each position either the separator
    starts here (the piece is closed and the scan resumes after it) or the
    character joins the piece. *)
Equations? split_from (c0 : ascii) (sep' : string) (cur : string) (s : string)
  : list string by wf (String.length s) lt :=
  split_from c0 sep' cur EmptyString := [cur];
  split_from c0 sep' cur (String c s') with inspect (strip_prefix (String c0 sep') (String c s')) := {
    | exist _ (Some rest) E => cur :: split_from c0 sep' "" rest
    | exist _ None E => split_from c0 sep' (cur +:+ String c "") s' }.
Proof.
  change (strip_prefix (String c0 sep') (String c s') = Some rest) in E.
  apply strip_prefix_length in E. simpl in *. lia.
Qed.

(** [s.split(sep)]; an empty separator is a [ValueError]. *)
Definition str_split (s sep : string) : result (list string) :=
  match sep with
  | EmptyString => Raise (mkExn "ValueError" "empty separator")
  | String c0 sep' => Ok (split_from c0 sep' "" s)
  end.

(** [l[-1]] and [l[0]] on a list. *)
Definition list_last {A} (l : list A) : result A :=
  match last l with
  | Some x => Ok x
  | None => Raise (mkExn "IndexError" "list index out of range")
  end.

Definition list_first {A} (l : list A) : result A :=
  match l with
  | x :: _ => Ok x
  | [] => Raise (mkExn "IndexError" "list index out of range")
  end.

(** [sep.join(l)] for a list of strings. *)
Fixpoint str_join (sep : string) (l : list string) : string :=
  match l with
  | [] => ""
  | [x] => x
  | x :: l' => x +:+ sep +:+ str_join sep l'
  end.

(** [sep.join(l)] for a list of values: every item must be a [str]. *)
Definition py_join (sep : string) (l : list pyval) : result string :=
  rbind (rmapM (fun v => match v with
                         | VStr s => Ok s
                         | _ => Raise (mkExn "TypeError" "sequence item: expected str instance")
                         end) l)
        (fun ss => Ok (str_join sep ss)).

(** [YouTubeTranscriptTool.extract_video_id] (a static method):
    [url.split("v=")[-1].split("&")[0]]. *)
Definition extract_video_id (url : string) : result string :=
  rbind (str_split url "v=") (fun parts =>
  rbind (list_last parts) (fun tail =>
  rbind (str_split tail "&") (fun pieces =>
  list_first pieces))).

(** The reading of [extract_video_id] in words: the text after the last
    occurrence of ["v="] (all of the URL when there is none), cut at the first
    ["&"] (not cut when there is none). *)
Definition occurs (sep s : string) : Prop :=
  exists a b, s = a +:+ sep +:+ b.

Definition after_last (sep s t : string) : Prop :=
  (exists pre, s = pre +:+ sep +:+ t /\ ~ occurs sep t) \/ (~ occurs sep s /\ t = s).

Definition up_to_first (sep t v : string) : Prop :=
  (exists post, t = v +:+ sep +:+ post /\ ~ occurs sep v) \/ (~ occurs sep t /\ v = t).

Definition video_id_spec (url vid : string) : Prop :=
  exists t, after_last "v=" url t /\ up_to_first "&" t vid.

(** ** Schema contract *)

Module SchemaContract.

(** Modelled from the spec: [BaseIOSchema] (atomic_agents.agents.base_agent)
    is not in the sources; only the field declarations of its subclasses are.
    Following section 3 and 4.1 of the design, a schema is a named, ordered
    list of fields, each with a semantic type and a description; [validate]
    checks presence and type conformance of every declared field and reports
    the path, the expected type and what was found instead. Nested schemas,
    which none of the schemas in the sources declare, are left out. *)
Inductive sem_type :=
| TString
| TNumber
| TBoolean
| TList (elem : sem_type)
| TMapping
| TOptional (elem : sem_type).

(** Modelled from the spec: a field declaration (section 3). [f_default =
    None] is a required field ([Field(...)] or a bare annotation); [Some d]
    makes the field optional. *)
Record field := mkField {
  f_name : string;
  f_type : sem_type;
  f_default : option pyval;
  f_description : string;
}.

(** Modelled from the spec: a schema (section 3), a named, ordered list of
    field declarations. *)
Record Schema := mkSchema {
  schema_name : string;
  schema_doc : string;
  schema_fields : list field;
}.

(** Modelled from the spec: the [required] flag of a field. *)
Definition f_required (f : field) : bool :=
  match f_default f with None => true | Some _ => false end.

(** Modelled from the spec: what a validation error carries (section 4.1): the
    field path, the expected type and what was found instead. *)
Inductive found := Missing | Found (type : string).

(** Modelled from the spec: one error of [validate]. *)
Record field_error := mkFieldError {
  fe_path : string;
  fe_expected : sem_type;
  fe_found : found;
}.

(** Modelled from the spec: the result of [validate], an instance or the
    errors found. *)
Inductive validation (A : Type) :=
| Valid (a : A)
| Invalid (errors : list field_error).
Arguments Valid {A} a.
Arguments Invalid {A} errors.

(** Modelled from the spec: a schema instance, the validated value of each
    declared field. *)
Abbreviation instance := (gmap string pyval).

(** Modelled from the spec: type conformance (section 4.1), with the
    conversion the declared Python types imply: a number field is a [float],
    and an integer is accepted for it and stored as the float it denotes.
    [None] stands for a type-invalid value. *)
Fixpoint coerce (t : sem_type) (v : pyval) {struct t} : option pyval :=
  match t, v with
  | TString, VStr s => Some (VStr s)
  | TNumber, VFloat f => Some (VFloat f)
  | TNumber, VInt z =>
      match float_of_Z z with
      | Ok f => Some (VFloat f)
      | Raise _ => None
      end
  | TBoolean, VBool b => Some (VBool b)
  | TList e, VList l => VList <$> mapM (coerce e) l
  | TMapping, VDict d => Some (VDict d)
  | TOptional e, VNone => Some VNone
  | TOptional e, _ => coerce e v
  | _, _ => None
  end.

(** Modelled from the spec: the values a validated instance holds for a field
    of type [t]. *)
Fixpoint has_type (t : sem_type) (v : pyval) {struct t} : bool :=
  match t, v with
  | TString, VStr _ => true
  | TNumber, VFloat _ => true
  | TBoolean, VBool _ => true
  | TList e, VList l => forallb (has_type e) l
  | TMapping, VDict _ => true
  | TOptional e, VNone => true
  | TOptional e, _ => has_type e v
  | _, _ => false
  end.

Definition check_field (raw : gmap string pyval) (f : field) : field_error + pyval :=
  match raw !! f_name f with
  | Some v =>
      match coerce (f_type f) v with
      | Some v' => inr v'
      | None => inl (mkFieldError (f_name f) (f_type f) (Found (type_name v)))
      end
  | None =>
      match f_default f with
      | Some d => inr d
      | None => inl (mkFieldError (f_name f) (f_type f) Missing)
      end
  end.

(** Modelled from the spec: [validate] (section 4.1). Every declared field is
    checked for presence and type; all errors are collected, in declaration
    order. Undeclared keys of [raw] are ignored. *)
Fixpoint validate_fields (fs : list field) (raw : gmap string pyval)
  : list field_error * instance :=
  match fs with
  | [] => ([], ∅)
  | f :: fs' =>
      let '(errs, inst) := validate_fields fs' raw in
      match check_field raw f with
      | inl e => (e :: errs, inst)
      | inr v => (errs, <[f_name f := v]> inst)
      end
  end.

Definition validate (s : Schema) (raw : gmap string pyval) : validation instance :=
  match validate_fields (schema_fields s) raw with
  | ([], inst) => Valid inst
  | (errs, _) => Invalid errs
  end.

(** Modelled from the spec: [validate] on an arbitrary raw value; anything but
    a mapping fails at the root. *)
Definition validate_value (s : Schema) (raw : pyval) : validation instance :=
  match raw with
  | VDict d => validate s d
  | _ => Invalid [mkFieldError "" TMapping (Found (type_name raw))]
  end.

(** Modelled from the spec: [describe] (section 4.1), the declarative field
    list (name, type, description, required). *)
Definition describe (s : Schema) : list (string * sem_type * string * bool) :=
  map (fun f => (f_name f, f_type f, f_description f, f_required f)) (schema_fields s).

(** A validated instance of [s]: exactly the declared fields, each holding a
    value of its type. *)
Definition instance_of (s : Schema) (inst : instance) : Prop :=
  dom inst = list_to_set (map f_name (schema_fields s)) /\
  Forall (fun f => exists v, inst !! f_name f = Some v /\ has_type (f_type f) v = true)
         (schema_fields s).

(** Defaults are not validated on construction; a schema whose defaults are of
    the declared type is well formed. *)
Definition well_formed (s : Schema) : Prop :=
  NoDup (map f_name (schema_fields s)) /\
  Forall (fun f => forall d, f_default f = Some d -> has_type (f_type f) d = true)
         (schema_fields s).

(** Modelled from the spec: constructing a schema instance from keyword
    arguments (the invariant of section 3), as Python sees it: a
    [ValidationError] naming the offending fields is raised when validation
    fails. *)
Definition error_message (errs : list field_error) : string :=
  str_join ", " (map fe_path errs).

Definition construct (s : Schema) (kwargs : gmap string pyval) : result instance :=
  match validate s kwargs with
  | Valid inst => Ok inst
  | Invalid errs => Raise (mkExn "ValidationError" (error_message errs))
  end.

End SchemaContract.
Export SchemaContract.

(** *** The schemas of the transcript tool *)

(** [class YouTubeTranscriptToolInputSchema(BaseIOSchema)] *)
Definition YouTubeTranscriptToolInputSchema : Schema :=
  mkSchema "YouTubeTranscriptToolInputSchema"
    "Tool for fetching the transcript of a YouTube video using the YouTube Transcript API."
    [ mkField "video_url" TString None
        "URL of the YouTube video to fetch the transcript for.";
      mkField "language" (TOptional TString) (Some VNone)
        "Language code for the transcript (e.g., 'en' for English)." ].

(** [class YouTubeTranscriptToolOutputSchema(BaseIOSchema)] *)
Definition YouTubeTranscriptToolOutputSchema : Schema :=
  mkSchema "YouTubeTranscriptToolOutputSchema"
    "Output schema for the YouTubeTranscriptTool. Contains the transcript text, duration, comments, and metadata."
    [ mkField "transcript" TString None "";
      mkField "duration" TNumber None "";
      mkField "comments" (TList TString) None "";
      mkField "metadata" TMapping None "" ].

(** ** Effects of the tool's methods

    A method reads and writes the attributes of [self], calls external
    services and may raise. The calls are recorded in the order they are
    made; what a service answers may depend on everything that was called
    before, so a repeated call need not get the same answer. *)

Inductive call :=
| Getenv (name : string)
    (** [os.getenv(name)] *)
| GetTranscript (video_id : string) (languages : option pyval)
    (** [YouTubeTranscriptApi.get_transcript(video_id[, languages=...])] *)
| Build (serviceName version : string) (developerKey : pyval)
    (** [googleapiclient.discovery.build(serviceName, version, developerKey=...)] *)
| VideosListExecute (developerKey : pyval) (part id : string).
    (** [youtube.videos().list(part=..., id=...).execute()] *)

(** The outside world: the interpreter that runs the program, and the answer
    (or the exception) of each call, given the calls made so far. A world is
    applied to the calls made and the call as a function. *)
Record world := mkWorld {
  interpreter_of : interpreter;
  answer :> list call -> call -> result pyval;
}.

Record state := mkState {
  self : gmap string pyval;
  calls : list call;
}.

Definition M (A : Type) : Type := world -> state -> result A * state.

Definition ret {A} (a : A) : M A := fun _ st => (Ok a, st).

Definition bind {A B} (m : M A) (k : A -> M B) : M B :=
  fun w st =>
    match m w st with
    | (Ok a, st') => k a w st'
    | (Raise e, st') => (Raise e, st')
    end.

Declare Scope tool_scope.
Delimit Scope tool_scope with tool.
Notation "'let*' x ':=' m 'in' k" := (bind m (fun x => k))
  (at level 10, x name, m at level 100, k at level 200,
   format "'[v' 'let*'  x  ':='  m  'in' '/' k ']'") : tool_scope.

Definition raise {A} (e : exn) : M A := fun _ st => (Raise e, st).

(** A pure computation that may raise. *)
Definition lift {A} (r : result A) : M A := fun _ st => (r, st).

(** [self.name] *)
Definition getattr (name : string) : M pyval :=
  fun _ st =>
    match self st !! name with
    | Some v => (Ok v, st)
    | None => (Raise (mkExn "AttributeError" name), st)
    end.

(** [self.name = v] *)
Definition setattr (name : string) (v : pyval) : M unit :=
  fun _ st => (Ok tt, mkState (<[name := v]> (self st)) (calls st)).

(** A call to an external service. *)
Definition external (c : call) : M pyval :=
  fun w st => (w (calls st) c, mkState (self st) (calls st ++ [c])).

(** [try: m  except ...: handler]: [handler e] is [None] when no [except]
    clause matches [e]. *)
Definition try_except {A} (m : M A) (handler : exn -> option (M A)) : M A :=
  fun w st =>
    match m w st with
    | (Ok a, st') => (Ok a, st')
    | (Raise e, st') =>
        match handler e with
        | Some h => h w st'
        | None => (Raise e, st')
        end
    end.

(** [sum(l)], the builtin of the interpreter at hand. *)
Definition builtins_sum (l : list pyval) : M pyval :=
  fun w st => (py_sum (interpreter_of w) l, st).

(** [obj.name] on a schema or configuration instance. *)
Definition attr (obj : instance) (name : string) : result pyval :=
  match obj !! name with
  | Some v => Ok v
  | None => Raise (mkExn "AttributeError" name)
  end.

(** ** The transcript tool *)

Module YouTubeTranscriptTool.

Local Open Scope tool_scope.

(** [class YouTubeTranscriptToolConfig(BaseToolConfig)]: the default of
    [api_key] is [os.getenv("YOUTUBE_API_KEY")], evaluated once, when the
    class body is executed. *)
Definition config_class_default : M pyval :=
  external (Getenv "YOUTUBE_API_KEY").

(** The configuration schema, given the default computed at class
    definition. *)
Definition YouTubeTranscriptToolConfig (default_api_key : pyval) : Schema :=
  mkSchema "YouTubeTranscriptToolConfig" ""
    [ mkField "api_key" TString (Some default_api_key)
        "YouTube API key for fetching video metadata." ].

(** Modelled from the spec: [BaseTool.__init__]
    (atomic_agents.lib.tools.base_tool) is not in the sources. By section 3 a
    tool descriptor holds its configuration object, and by section 6
    configuration is passed in at construction and nothing is read from the
    environment; the base initialiser is taken to keep the configuration it is
    given. *)
Definition BaseTool__init__ (config : instance) : M unit :=
  setattr "config" (VDict config).

(** [YouTubeTranscriptTool.__init__(self, config)] *)
Definition __init__ (config : instance) : M unit :=
  let* _u := BaseTool__init__ config in
  let* api_key := lift (attr config "api_key") in
  setattr "api_key" api_key.

(** The exceptions named by the [except] clause of [run]. *)
Definition caught (e : exn) : bool :=
  String.eqb (exn_class e) "NoTranscriptFound"
  || String.eqb (exn_class e) "TranscriptsDisabled".

(** [url.split(...)] needs [url] to be a [str]. *)
Definition as_str (v : pyval) : result string :=
  match v with
  | VStr s => Ok s
  | _ => Raise (mkExn "AttributeError" "split")
  end.

(** [YouTubeTranscriptTool.fetch_video_metadata(self, video_id)] *)
Definition fetch_video_metadata (video_id : string) : M (gmap string pyval) :=
  let* api_key := getattr "api_key" in
  let* _youtube := external (Build "youtube" "v3" api_key) in
  let* response := external (VideosListExecute api_key "snippet" video_id) in
  let* items := lift (py_getitem response "items") in
  if negb (py_truthy items)
  then raise (mkExn "Exception" ("No metadata found for video '" +:+ video_id +:+ "'"))
  else
    let* items := lift (py_getitem response "items") in
    let* item := lift (py_getitem0 items) in
    let* video_info := lift (py_getitem item "snippet") in
    let* title := lift (py_getitem video_info "title") in
    let* channel := lift (py_getitem video_info "channelTitle") in
    let* published_at := lift (py_getitem video_info "publishedAt") in
    ret ({[ "id" := VStr video_id;
            "title" := title;
            "channel" := channel;
            "published_at" := published_at ]} : gmap string pyval).

(** The [try] block of [run]. *)
Definition get_transcript (params : instance) (video_id : string) : M pyval :=
  let* language := lift (attr params "language") in
  if py_truthy language
  then external (GetTranscript video_id (Some (VList [language])))
  else external (GetTranscript video_id None).

(** [YouTubeTranscriptTool.run(self, params)] *)
Definition run (params : instance) : M instance :=
  let* url := lift (rbind (attr params "video_url") as_str) in
  let* video_id := lift (extract_video_id url) in
  let* transcripts :=
    try_except (get_transcript params video_id)
      (fun e =>
         if caught e
         then Some (raise (mkExn "Exception"
                ("Failed to fetch transcript for video '" +:+ video_id +:+ "': " +:+ exn_msg e)))
         else None) in
  let* texts := lift (rbind (py_iter transcripts) (rmapM (fun transcript => py_getitem transcript "text"))) in
  let* transcript_text := lift (py_join " " texts) in
  let* durations := lift (rbind (py_iter transcripts) (rmapM (fun transcript => py_getitem transcript "duration"))) in
  let* total_duration := builtins_sum durations in
  let* metadata := fetch_video_metadata video_id in
  lift (construct YouTubeTranscriptToolOutputSchema
          {[ "transcript" := VStr transcript_text;
             "duration" := total_duration;
             "comments" := VList [];
             "metadata" := VDict metadata ]}).

(** A caller that invokes [run] on one input after another, catching
    whatever is raised: the state the tool is left in. *)
Fixpoint run_all (inputs : list instance) (w : world) (st : state) : state :=
  match inputs with
  | [] => st
  | params :: rest => run_all rest w (snd (run params w st))
  end.

(** An object on which no attribute has been set yet. *)
Definition fresh (cs : list call) : state := mkState ∅ cs.

End YouTubeTranscriptTool.

(** ** The agent execution loop *)

Module Agent.

(** Modelled from the spec: [BaseAgent], [BaseAgentConfig],
    [ToolInterfaceAgent] and [SystemPromptGenerator] (atomic_agents.agents,
    atomic_agents.lib.components) are not in the sources; only the scripts
    under examples/ that construct and call them are. The definitions below
    follow sections 3, 4.2, 4.3, 4.4, 4.5 and 7 of the design; the field names
    of the configuration are those the example scripts pass. Re-entrant calls
    (section 5) are outside this sequential model. *)
Inductive role := User | Assistant | System | Tool.

(** Modelled from the spec: a message (section 3), a role and a payload
    conforming to some schema. *)
Record Message := mkMessage {
  msg_role : role;
  msg_payload : instance;
}.

(** Modelled from the spec: conversation memory (section 3), the ordered
    messages of one agent. *)
Abbreviation Memory := (list Message).

(** Modelled from the spec: the system prompt builder's three ordered lists
    of fragments (section 4.2), under the names the example scripts pass. *)
Record SystemPromptGenerator := mkPrompt {
  background : list string;
  steps : list string;
  output_instructions : list string;
}.

(** Modelled from the spec: a tool descriptor (section 3): a schema pair, a
    name and an invocation capability. *)
Record ToolDescriptor := mkTool {
  tool_name : string;
  tool_input_schema : Schema;
  tool_output_schema : Schema;
  tool_invoke : instance -> result (gmap string pyval);
}.

(** Modelled from the spec: the tool contract's [run] (section 4.3) validates
    its own output against the declared output schema before returning. *)
Definition tool_run (t : ToolDescriptor) (input : instance) : result instance :=
  rbind (tool_invoke t input) (construct (tool_output_schema t)).

(** Modelled from the spec: the rendered system prompt (section 4.2): the
    three fragment lists in order and, when a tool is bound, the description
    of the tool's input schema. *)
Record SystemPrompt := mkSystemPrompt {
  sp_background : list string;
  sp_steps : list string;
  sp_output_instructions : list string;
  sp_tool_usage : option (list (string * sem_type * string * bool));
}.

(** Modelled from the spec: rendering (section 4.2), a function of the
    fragment lists and of the bound tool alone. *)
Definition render (g : SystemPromptGenerator) (tool : option ToolDescriptor) : SystemPrompt :=
  mkSystemPrompt (background g) (steps g) (output_instructions g)
    (option_map (fun t => describe (tool_input_schema t)) tool).

(** Modelled from the spec: the outgoing request (section 4.4, step 3): system
    prompt, memory and the declaration of the expected output shape. *)
Record Request := mkRequest {
  req_model : string;
  req_system : SystemPrompt;
  req_messages : Memory;
  req_response_format : list (string * sem_type * string * bool);
}.

(** Modelled from the spec: what the model backend's [complete] gives back
    (section 6). *)
Inductive reply :=
| Reply (raw : pyval)
| BackendFailure (msg : string).

(** Modelled from the spec: the agent configuration (section 3), with the
    field names the example scripts pass to [BaseAgentConfig]. *)
Record BaseAgentConfig := mkConfig {
  client : Request -> reply;
  model : string;
  system_prompt_generator : SystemPromptGenerator;
  input_schema : Schema;
  output_schema : Schema;
}.

(** Modelled from the spec: the typed failures of section 7, with the output
    validation failure of section 4.4. *)
Inductive AgentError :=
| SchemaValidationError (errors : list field_error)
| ModelBackendError (msg : string)
| ModelOutputValidationError (errors : list field_error) (raw : pyval)
| ToolError (tool : string) (cause : exn)
| ConcurrentRunError.

(** Modelled from the spec: how a call of [run] ends. *)
Inductive outcome :=
| Returned (output : instance)
| Failed (error : AgentError).

(** Modelled from the spec: step 3 of section 4.4, with the full memory. *)
Definition build_request (cfg : BaseAgentConfig) (tool : option ToolDescriptor)
  (messages : Memory) : Request :=
  mkRequest (model cfg) (render (system_prompt_generator cfg) tool) messages
    (describe (output_schema cfg)).

(** Modelled from the spec: a parsed model response, a final answer or (for an
    agent with a bound tool) a request to invoke the tool. *)
Inductive parsed :=
| Final (output : instance)
| ToolRequest (payload : instance).

(** Modelled from the spec: step 5 of section 4.4. With a bound tool the
    output schema is the superset of section 4.5: a response is a tool request
    exactly when it conforms to the tool-invocation variant, which is the
    tool's input schema. *)
Definition parse_response (cfg : BaseAgentConfig) (tool : option ToolDescriptor)
  (raw : pyval) : validation parsed :=
  let plain :=
    match validate_value (output_schema cfg) raw with
    | Valid out => Valid (Final out)
    | Invalid errs => Invalid errs
    end in
  match tool with
  | None => plain
  | Some t =>
      match validate_value (tool_input_schema t) raw with
      | Valid payload => Valid (ToolRequest payload)
      | Invalid _ => plain
      end
  end.

Definition parsed_output (p : parsed) : instance :=
  match p with
  | Final out => out
  | ToolRequest payload => payload
  end.

(** Modelled from the spec: the follow-up round after a tool call (section
    4.4, step 6: steps 3 to 5 once more, then 7 and 8): the tool result is
    context for one more request, whose parsed answer is final. A failure
    leaves only the user append, [mem1], in memory. *)
Definition follow_up (cfg : BaseAgentConfig) (t : ToolDescriptor)
  (mem1 : Memory) (tool_out : instance) : outcome * Memory :=
  let context := mem1 ++ [mkMessage Tool tool_out] in
  match client cfg (build_request cfg (Some t) context) with
  | BackendFailure msg => (Failed (ModelBackendError msg), mem1)
  | Reply raw =>
      match parse_response cfg (Some t) raw with
      | Invalid errs => (Failed (ModelOutputValidationError errs raw), mem1)
      | Valid p =>
          (Returned (parsed_output p),
           context ++ [mkMessage Assistant (parsed_output p)])
      end
  end.

(** Modelled from the spec: [run], steps 1 to 8 of section 4.4, for an agent
    with or without a bound tool. The memory is passed in and the memory after
    the call is returned with the outcome. *)
Definition agent_loop (cfg : BaseAgentConfig) (tool : option ToolDescriptor)
  (memory : Memory) (input : pyval) : outcome * Memory :=
  match validate_value (input_schema cfg) input with
  | Invalid errs => (Failed (SchemaValidationError errs), memory)
  | Valid user_input =>
      let mem1 := memory ++ [mkMessage User user_input] in
      match client cfg (build_request cfg tool mem1) with
      | BackendFailure msg => (Failed (ModelBackendError msg), mem1)
      | Reply raw =>
          match parse_response cfg tool raw, tool with
          | Invalid errs, _ => (Failed (ModelOutputValidationError errs raw), mem1)
          | Valid (ToolRequest payload), Some t =>
              match tool_run t payload with
              | Raise e => (Failed (ToolError (tool_name t) e), mem1)
              | Ok tool_out => follow_up cfg t mem1 tool_out
              end
          | Valid p, _ =>
              (Returned (parsed_output p), mem1 ++ [mkMessage Assistant (parsed_output p)])
          end
      end
  end.

(** Modelled from the spec: the agent execution loop proper, [BaseAgent.run],
    with no tool bound. *)
Definition run (cfg : BaseAgentConfig) : Memory -> pyval -> outcome * Memory :=
  agent_loop cfg None.

(** Modelled from the spec: the tool-interface agent (section 4.5), the loop
    with exactly one tool bound. *)
Record ToolInterfaceAgentConfig := mkToolConfig {
  base_config : BaseAgentConfig;
  tool_instance : ToolDescriptor;
}.

Definition tool_interface_run (cfg : ToolInterfaceAgentConfig)
  : Memory -> pyval -> outcome * Memory :=
  agent_loop (base_config cfg) (Some (tool_instance cfg)).

(** Successive calls of [run] on one agent: the outcomes, and the memory at
    the end. *)
Fixpoint run_calls (cfg : BaseAgentConfig) (memory : Memory) (inputs : list pyval)
  : list outcome * Memory :=
  match inputs with
  | [] => ([], memory)
  | input :: rest =>
      let '(o, memory') := run cfg memory input in
      let '(os, memory'') := run_calls cfg memory' rest in
      (o :: os, memory'')
  end.

(** A model backend stub that always returns the same payload. *)
Definition stub (payload : pyval) : Request -> reply := fun _ => Reply payload.

End Agent.

(** ** Observations on the calls a method makes *)

Definition is_transcript_fetch (c : call) : bool :=
  match c with GetTranscript _ _ => true | _ => false end.

Definition is_client_build (c : call) : bool :=
  match c with Build _ _ _ => true | _ => false end.

Definition is_metadata_request (c : call) : bool :=
  match c with VideosListExecute _ _ _ => true | _ => false end.

Definition count_calls (p : call -> bool) (l : list call) : nat :=
  length (List.filter p l).

(** A computation that leaves the attributes of [self] as they were. *)
Definition preserves_self {A} (m : M A) : Prop :=
  forall w st, self (snd (m w st)) = self st.

(** No call is made after one that failed: whenever a call of [new], made
    after [base], raised, it is the last of [new]. *)
Definition stops_at_failure (w : world) (base new : list call) : Prop :=
  forall before c after,
    new = before ++ c :: after ->
    is_ok (w (base ++ before) c) = false ->
    after = [].

(** ** The reference reading of [run]

    In words: the transcript is the single-space join of the segments' text
    fields in order, the duration is the sum of the segments' duration
    fields, the comments are the empty list, and the metadata has exactly the
    keys [id], [title], [channel] and [published_at], with [id] the video
    id. *)

Definition text_fields (segments : list pyval) (texts : list string) : Prop :=
  Forall2 (fun seg t => py_getitem seg "text" = Ok (VStr t)) segments texts.

Definition duration_fields (segments : list pyval) (durations : list pyval) : Prop :=
  Forall2 (fun seg d => py_getitem seg "duration" = Ok d) segments durations.

Definition reference_metadata (video_id : string) (snippet : pyval)
  (metadata : gmap string pyval) : Prop :=
  exists title channel published_at,
    py_getitem snippet "title" = Ok title /\
    py_getitem snippet "channelTitle" = Ok channel /\
    py_getitem snippet "publishedAt" = Ok published_at /\
    metadata = {[ "id" := VStr video_id;
                  "title" := title;
                  "channel" := channel;
                  "published_at" := published_at ]}.

(** Modelled from the spec: the sum of durations that are floats, in the
    arithmetic of the interpreter. Up to CPython 3.11 each duration is added
    to the total, from zero and from left to right. From 3.12 on the rounding
    error of each addition is recovered (from the operand of smaller
    magnitude) and collected in [c], which is added to the total at the end
    when it is finite and not zero; the first duration is added to zero
    uncorrected. *)
Fixpoint neumaier_sum (total c : float) (ds : list float) : float :=
  match ds with
  | [] =>
      if PrimFloat.is_finite c && negb (PrimFloat.eqb c 0)
      then (total + c)%float
      else total
  | x :: ds' =>
      let t := (total + x)%float in
      let error :=
        if PrimFloat.leb (PrimFloat.abs x) (PrimFloat.abs total)
        then ((total - t) + x)%float
        else ((x - t) + total)%float in
      neumaier_sum t (c + error)%float ds'
  end.

Definition float_sum (py : interpreter) (ds : list float) : float :=
  match py with
  | CPython311 => fold_left PrimFloat.add ds 0%float
  | CPython312 =>
      match ds with
      | [] => 0%float
      | x :: ds' => neumaier_sum (0 + x)%float 0%float ds'
      end
  end.

(** Modelled from the spec: the float nearest to an integer (ties to even),
    the value a number field holds for an integer sum. *)
Definition nearest_float (z : Z) : float :=
  SF2Prim (binary_normalize prec emax z 0 false).

(** Modelled from the spec: the output of [run] over the segments the
    transcript API returned and the snippet of the metadata response. The
    join is that of the standard library; the sum is given for durations
    that are all floats (what the API returns) and for durations that are
    all integers. *)
Definition reference_output (py : interpreter) (video_id : string)
  (segments : list pyval) (snippet : pyval) (out : instance) : Prop :=
  exists texts durations d metadata,
    text_fields segments texts /\
    duration_fields segments durations /\
    (forall ds, durations = map VFloat ds -> d = float_sum py ds) /\
    (forall zs, durations = map VInt zs -> d = nearest_float (fold_right Z.add 0%Z zs)) /\
    reference_metadata video_id snippet metadata /\
    out = {[ "transcript" := VStr (String.concat " " texts);
             "duration" := VFloat d;
             "comments" := VList [];
             "metadata" := VDict metadata ]}.


(** A transcript segment as the transcript API returns it. *)
Record segment := mkSegment {
  seg_text : string;
  seg_start : float;
  seg_duration : float;
}.

Definition segment_value (s : segment) : pyval :=
  VDict {[ "text" := VStr (seg_text s);
           "start" := VFloat (seg_start s);
           "duration" := VFloat (seg_duration s) ]}.

(** The failure the design asks of a tool: a [ToolError]. *)
Definition is_ToolError (e : exn) : bool :=
  String.eqb (exn_class e) "ToolError".

(** The messages of the two exceptions [run] raises itself. *)
Definition transcript_failure_message (video_id cause : string) : string :=
  "Failed to fetch transcript for video '" +:+ video_id +:+ "': " +:+ cause.

Definition no_metadata_message (video_id : string) : string :=
  "No metadata found for video '" +:+ video_id +:+ "'".

(** ** Example inputs *)

(** The input of the tool's own example, and the same input with a list of
    language codes where one code is declared. *)
Definition example_kwargs : gmap string pyval :=
  {[ "video_url" := VStr "https://www.youtube.com/watch?v=t1e8gqXLbsU";
     "language" := VStr "en" ]}.

Definition bad_language_kwargs : gmap string pyval :=
  {[ "video_url" := VStr "https://www.youtube.com/watch?v=t1e8gqXLbsU";
     "language" := VList [VStr "en"; VStr "de"] ]}.

(** The configuration, the tool and the input of the module's own example
    ([if __name__ == "__main__"]), and three outside worlds: one where both
    services answer, one without a transcript, one where the video is gone. *)
Definition example_config : instance := {[ "api_key" := VStr "KEY" ]}.

Definition example_segments : list segment :=
  [ mkSegment "hello" 0 1.5; mkSegment "world" 1.5 2.25 ].

Definition example_snippet : pyval :=
  VDict {[ "title" := VStr "A title";
           "channelTitle" := VStr "A channel";
           "publishedAt" := VStr "2024-01-01T00:00:00Z" ]}.

Definition example_response : pyval :=
  VDict {[ "items" := VList [VDict {[ "snippet" := example_snippet ]}] ]}.

Definition example_world : world :=
  mkWorld CPython312
    (fun _ c =>
       match c with
       | Getenv _ => Ok VNone
       | GetTranscript _ _ => Ok (VList (map segment_value example_segments))
       | Build _ _ _ => Ok VNone
       | VideosListExecute _ _ _ => Ok example_response
       end).

Definition no_transcript_world : world :=
  mkWorld (interpreter_of example_world)
    (fun past c =>
       match c with
       | GetTranscript _ _ => Raise (mkExn "NoTranscriptFound" "No transcripts were found")
       | _ => example_world past c
       end).

Definition unavailable_world : world :=
  mkWorld (interpreter_of example_world)
    (fun past c =>
       match c with
       | GetTranscript _ _ => Raise (mkExn "VideoUnavailable" "The video is no longer available")
       | _ => example_world past c
       end).

Definition no_items_world : world :=
  mkWorld (interpreter_of example_world)
    (fun past c =>
       match c with
       | VideosListExecute _ _ _ => Ok (VDict {[ "items" := VList [] ]})
       | _ => example_world past c
       end).

Definition example_tool : state :=
  snd (YouTubeTranscriptTool.__init__ example_config example_world
         (YouTubeTranscriptTool.fresh [])).

Definition example_output : instance :=
  {[ "transcript" := VStr "hello world";
     "duration" := VFloat 3.75;
     "comments" := VList [];
     "metadata" := VDict {[ "id" := VStr "t1e8gqXLbsU";
                            "title" := VStr "A title";
                            "channel" := VStr "A channel";
                            "published_at" := VStr "2024-01-01T00:00:00Z" ]} ]}.

(** Three segments of 0.1, 0.2 and 0.3 seconds, durations that are not
    binary fractions: their sum depends on how the interpreter adds. The
    world answers like [example_world] otherwise. *)
Definition tenths_segments : list segment :=
  [ mkSegment "one" 0 0x1.999999999999ap-4;
    mkSegment "two" 1 0x1.999999999999ap-3;
    mkSegment "three" 2 0x1.3333333333333p-2 ].

Definition tenths_world (py : interpreter) : world :=
  mkWorld py
    (fun past c =>
       match c with
       | GetTranscript _ _ => Ok (VList (map segment_value tenths_segments))
       | _ => example_world past c
       end).

Definition tenths_output (duration : float) : instance :=
  {[ "transcript" := VStr "one two three";
     "duration" := VFloat duration;
     "comments" := VList [];
     "metadata" := VDict {[ "id" := VStr "t1e8gqXLbsU";
                            "title" := VStr "A title";
                            "channel" := VStr "A channel";
                            "published_at" := VStr "2024-01-01T00:00:00Z" ]} ]}.

(** The answer agent of examples/deep_research_multi_agent
    (question_answering_agent.py): its schemas and its prompt, with the model
    backend left as a parameter. *)
Definition AnswerAgentInputSchema : Schema :=
  mkSchema "AnswerAgentInputSchema"
    "This schema defines the input schema for the AnswerAgent."
    [ mkField "question" TString None
        "A question that needs to be answered based on the provided context." ].

Definition AnswerAgentOutputSchema : Schema :=
  mkSchema "AnswerAgentOutputSchema"
    "This schema defines the output schema for the AnswerAgent."
    [ mkField "markdown_output" TString None
        "The answer to the question in markdown format." ].

Definition answer_agent (backend : Agent.Request -> Agent.reply) : Agent.BaseAgentConfig :=
  Agent.mkConfig backend "gpt-4o-mini"
    (Agent.mkPrompt
       [ "You are an intelligent answering expert.";
         "Your task is to provide accurate and detailed answers to user questions based on the given context." ]
       [ "You will receive a question and the context information.";
         "Generate a detailed and accurate answer based on the context." ]
       [ "Ensure clarity and conciseness in each answer.";
         "Ensure the answer is directly relevant to the question and context provided." ])
    AnswerAgentInputSchema
    AnswerAgentOutputSchema.

Definition example_question : pyval :=
  VDict {[ "question" := VStr "What is a transcript?" ]}.

Definition example_answer : pyval :=
  VDict {[ "markdown_output" := VStr "A written record of speech." ]}.

(** A model reply that does not have the declared output field. *)
Definition malformed_answer : pyval :=
  VDict {[ "answer" := VStr "A written record of speech." ]}.

(** A tool descriptor for the transcript tool: its schemas, and its [run] in
    a given outside world on a given tool object. *)
Definition transcript_tool (w : world) (tool : state) : Agent.ToolDescriptor :=
  Agent.mkTool "YouTubeTranscriptTool"
    YouTubeTranscriptToolInputSchema
    YouTubeTranscriptToolOutputSchema
    (fun input => fst (YouTubeTranscriptTool.run input w tool)).

(** A backend that first asks for the transcript tool and, once a tool result
    is in the conversation, gives a malformed answer. *)
Definition tool_then_malformed : Agent.Request -> Agent.reply :=
  fun request =>
    if existsb (fun m => match Agent.msg_role m with Agent.Tool => true | _ => false end)
         (Agent.req_messages request)
    then Agent.Reply malformed_answer
    else Agent.Reply (VDict example_kwargs).

(** A world in which the transcript fetch fails on the first attempt only: a
    second attempt would be answered. *)
Definition flaky_world : world :=
  mkWorld (interpreter_of example_world)
    (fun past c =>
       match c, past with
       | GetTranscript _ _, [] => Raise (mkExn "TooManyRequests" "YouTube is receiving too many requests")
       | _, _ => example_world past c
       end).

(** ** Occurrences, decided *)

(** Whether [sep] occurs in [s], by trying every position. *)
Fixpoint occursb (sep s : string) : bool :=
  match strip_prefix sep s with
  | Some _ => true
  | None =>
      match s with
      | EmptyString => false
      | String _ s' => occursb sep s'
      end
  end.

(** ** The transcript request of [run]

    [get_transcript(video_id, languages=[language])] for a language that is
    true as a condition, [get_transcript(video_id)] for [None] and for the
    empty string. *)
Definition transcript_request (video_id : string) (language : pyval) : call :=
  GetTranscript video_id (if py_truthy language then Some (VList [language]) else None).

Definition is_getenv (c : call) : bool :=
  match c with Getenv _ => true | _ => false end.

(** ** Further example inputs *)

(** The example input with an empty language. *)
Definition empty_language_kwargs : gmap string pyval :=
  {[ "video_url" := VStr "https://www.youtube.com/watch?v=t1e8gqXLbsU";
     "language" := VStr "" ]}.

(** Outside worlds that differ from [example_world] in one answer: a second
    metadata item, an error body without items, an empty transcript, and a
    transcript whose second segment has lost its text. *)
Definition two_items_response : pyval :=
  VDict {[ "items" := VList [VDict {[ "snippet" := example_snippet ]};
                             VDict {[ "snippet" := VStr "another item" ]}] ]}.

Definition two_items_world : world :=
  mkWorld (interpreter_of example_world)
    (fun past c =>
       match c with
       | VideosListExecute _ _ _ => Ok two_items_response
       | _ => example_world past c
       end).

Definition error_body : gmap string pyval := {[ "error" := VStr "quotaExceeded" ]}.

Definition error_body_world : world :=
  mkWorld (interpreter_of example_world)
    (fun past c =>
       match c with
       | VideosListExecute _ _ _ => Ok (VDict error_body)
       | _ => example_world past c
       end).

Definition empty_transcript_world : world :=
  mkWorld (interpreter_of example_world)
    (fun past c =>
       match c with
       | GetTranscript _ _ => Ok (VList [])
       | _ => example_world past c
       end).

Definition segment_without_text : gmap string pyval :=
  {[ "start" := VFloat 1.5; "duration" := VFloat 2.25 ]}.

Definition lost_text_world : world :=
  mkWorld (interpreter_of example_world)
    (fun past c =>
       match c with
       | GetTranscript _ _ =>
           Ok (VList ([segment_value (mkSegment "hello" 0 1.5)]
                        ++ VDict segment_without_text :: []))
       | _ => example_world past c
       end).

(** A world in which [YOUTUBE_API_KEY] is unset when the configuration class
    is defined and set by the time the script body runs. *)
Definition key_set_late_world : world :=
  mkWorld (interpreter_of example_world)
    (fun past c =>
       match c, past with
       | Getenv _, _ :: _ => Ok (VStr "LATE")
       | _, _ => example_world past c
       end).

(** ** The transcript tool's module, run as a script *)

Module TranscriptScript.

Import YouTubeTranscriptTool.

Local Open Scope tool_scope.

(** The module body from top to bottom when the file is run as a script: the
    class body of [YouTubeTranscriptToolConfig] evaluates the default of
    [api_key]; then the [if __name__ == "__main__"] block reads the
    environment again, builds the configuration from what it read, the tool
    from the configuration and the input from two literals, and runs the
    tool. The script's result here is the output it prints. *)
Definition script : M instance :=
  let* default_api_key := config_class_default in
  let* api_key := external (Getenv "YOUTUBE_API_KEY") in
  let* config := lift (construct (YouTubeTranscriptToolConfig default_api_key)
                         {[ "api_key" := api_key ]}) in
  let* _tool := __init__ config in
  let* search_input := lift (construct YouTubeTranscriptToolInputSchema
                               {[ "video_url" := VStr "https://www.youtube.com/watch?v=t1e8gqXLbsU";
                                  "language" := VStr "en" ]}) in
  run search_input.

(** [YouTubeTranscriptTool(config=YouTubeTranscriptToolConfig())]: the
    configuration built without arguments, and the tool built from it. *)
Definition default_tool (default_api_key : pyval) : M unit :=
  let* config := lift (construct (YouTubeTranscriptToolConfig default_api_key) ∅) in
  __init__ config.

End TranscriptScript.

(** ** The example scripts that drive agents *)

Module Scripts.

Import Agent.


(** What a script writes to the terminal: [print(text)], a print of the
    f-string [f"{prefix}{value}"], and the prompt of [input(prompt)]. *)
Inductive output :=
| Printed (text : string)
| Formatted (prefix : string) (value : pyval)
| Prompted (prompt : string).




(** *** examples/conversing_agents.py *)



Definition agent1_system_prompt_generator : SystemPromptGenerator :=
  mkPrompt
    [ "You are an agent that adds 1 to the number said by the previous person in the conversation." ]
    [ "If the previous message contains a number, add 1 to it." ]
    [ "Respond with only the resulting added number and never anything else. Do not include any additional text." ].








(** *** examples/simple_web_search_agent.py *)

(** [c.lower()] on a byte: the ASCII capitals. A character outside ASCII
    never becomes one of the letters of ["exit"] or ["quit"] when lowered, so
    the test below reads the same on bytes as on code points. *)
Definition ascii_lower (c : ascii) : ascii :=
  let n := nat_of_ascii c in
  if (65 <=? n)%nat && (n <=? 90)%nat then ascii_of_nat (n + 32) else c.

Fixpoint str_lower (s : string) : string :=
  match s with
  | EmptyString => EmptyString
  | String c s' => String (ascii_lower c) (str_lower s')
  end.

(** [user_input.lower() in ["exit", "quit"]] *)
Definition is_exit (user_input : string) : bool :=
  existsb (String.eqb (str_lower user_input)) ["exit"; "quit"].




End Scripts.

(** ** Example inputs for the scripts *)




(** * Properties *)

(** ** Strings and [str.split] *)

Lemma str_app_cons c s t : String c s +:+ t = String c (s +:+ t).
Proof. reflexivity. Qed.

Lemma str_app_nil_l s : "" +:+ s = s.
Proof. reflexivity. Qed.

Lemma str_app_nil_r s : s +:+ "" = s.
Proof. induction s as [|c s IH]; [reflexivity|]. rewrite str_app_cons, IH. reflexivity. Qed.

Lemma str_app_assoc s t u : (s +:+ t) +:+ u = s +:+ t +:+ u.
Proof. induction s as [|c s IH]; [reflexivity|]. rewrite !str_app_cons, IH. reflexivity. Qed.

Lemma strip_prefix_app p r : strip_prefix p (p +:+ r) = Some r.
Proof.
  induction p as [|a p IH]; [destruct r; reflexivity|].
  rewrite str_app_cons. simpl. rewrite Ascii.eqb_refl. exact IH.
Qed.

Lemma strip_prefix_Some p s r : strip_prefix p s = Some r -> s = p +:+ r.
Proof.
  revert s. induction p as [|a p IH]; intros s H.
  - destruct s; simpl in H; injection H as <-; reflexivity.
  - destruct s as [|b s]; simpl in H; [discriminate|].
    destruct (Ascii.eqb_spec a b) as [->|]; [|discriminate].
    rewrite str_app_cons. f_equal. auto.
Qed.

Lemma occurs_cons sep c s : occurs sep s -> occurs sep (String c s).
Proof. intros [a [b ->]]. exists (String c a), b. reflexivity. Qed.

(** Facts that hold for every non-empty separator. *)
Section Separator.

Variables (c0 : ascii) (sep' : string).

Local Abbreviation sep := (String c0 sep').

Lemma split_from_nil cur : split_from c0 sep' cur "" = [cur].
Proof. apply split_from_equation_1. Qed.

(** One step of the scan. *)
Lemma split_from_cons cur c s' :
  split_from c0 sep' cur (String c s') =
  match strip_prefix sep (String c s') with
  | Some rest => cur :: split_from c0 sep' "" rest
  | None => split_from c0 sep' (cur +:+ String c "") s'
  end.
Proof.
  rewrite split_from_equation_2. unfold inspect.
  assert (G : forall o (E : strip_prefix (String c0 sep') (String c s') = o),
    split_from_unfold_clause_2 c0 sep' cur c s' (exist _ o E) =
    match o with
    | Some rest => cur :: split_from c0 sep' "" rest
    | None => split_from c0 sep' (cur +:+ String c "") s'
    end).
  { intros [r|] E; reflexivity. }
  apply G.
Qed.

Lemma occurs_empty : ~ occurs sep "".
Proof. intros [[|x a] [b E]]; discriminate E. Qed.

Lemma occurs_cons_inv c s :
  occurs sep (String c s) ->
  (exists r, strip_prefix sep (String c s) = Some r) \/ occurs sep s.
Proof.
  intros [a [b E]]. destruct a as [|x a].
  - left. exists b. rewrite E. exact (strip_prefix_app sep b).
  - right. rewrite str_app_cons in E. injection E as _ E. exists a, b. exact E.
Qed.

Lemma not_occurs_cons c s :
  strip_prefix sep (String c s) = None -> ~ occurs sep s -> ~ occurs sep (String c s).
Proof.
  intros Hnone Hno [[r E]|H]%occurs_cons_inv; [congruence|auto].
Qed.

(** Without an occurrence of the separator there is one piece. *)
Lemma split_from_no_occurrence s cur :
  ~ occurs sep s -> split_from c0 sep' cur s = [cur +:+ s].
Proof.
  revert cur. induction s as [|c s IH]; intros cur Hno.
  - rewrite split_from_nil, str_app_nil_r. reflexivity.
  - rewrite split_from_cons.
    destruct (strip_prefix sep (String c s)) as [r|] eqn:E.
    + exfalso. apply Hno. exists "", r. apply strip_prefix_Some in E. exact E.
    + rewrite IH.
      * rewrite str_app_assoc. reflexivity.
      * intros H. apply Hno. apply occurs_cons. exact H.
Qed.

(** Every string has a part before the first occurrence and a part after
    the last one. *)
Lemma up_to_first_exists t : exists v, up_to_first sep t v.
Proof.
  induction t as [|c t [v IH]].
  - exists "". right. split; [apply occurs_empty|reflexivity].
  - destruct (strip_prefix sep (String c t)) as [r|] eqn:E.
    + exists "". left. exists r. split; [|apply occurs_empty].
      apply strip_prefix_Some in E. exact E.
    + destruct IH as [[post [-> Hno]]|[Hno ->]].
      * exists (String c v). left. exists post. split; [reflexivity|].
        apply not_occurs_cons; [|exact Hno].
        destruct (strip_prefix sep (String c v)) as [r|] eqn:E'; [|reflexivity].
        apply strip_prefix_Some in E'.
        rewrite <- str_app_cons, E', str_app_assoc, strip_prefix_app in E. discriminate.
      * exists (String c t). right. split; [|reflexivity].
        apply not_occurs_cons; assumption.
Qed.

Lemma after_last_exists s : exists t, after_last sep s t.
Proof.
  induction s as [|c s [t IH]].
  - exists "". right. split; [apply occurs_empty|reflexivity].
  - destruct IH as [[pre [-> Hno]]|[Hno ->]].
    + exists t. left. exists (String c pre). split; [reflexivity|exact Hno].
    + destruct (strip_prefix sep (String c s)) as [r|] eqn:E.
      * exists r. left. exists "". apply strip_prefix_Some in E. split; [exact E|].
        rewrite str_app_cons in E. injection E as _ ->.
        intros [a [b ->]]. apply Hno. exists (sep' +:+ a), b.
        rewrite str_app_assoc. reflexivity.
      * exists (String c s). right. split; [|reflexivity].
        apply not_occurs_cons; assumption.
Qed.

End Separator.

(** The two separators of [extract_video_id]. Neither can overlap itself, so
    the scan finds every occurrence: the last piece of a split on ["v="]
    starts after the last occurrence, the first piece of a split on ["&"]
    ends at the first one. *)
Lemma split_v_last n : forall pre cur t,
  (String.length pre <= n)%nat ->
  ~ occurs "v=" t ->
  last (split_from "v"%char "=" cur (pre +:+ "v=" +:+ t)) = Some t.
Proof.
  induction n as [|n IH]; intros pre cur t Hlen Hno.
  - destruct pre; [|simpl in Hlen; lia].
    rewrite str_app_nil_l. change ("v=" +:+ t) with (String "v" (String "=" t)).
    rewrite split_from_cons. simpl.
    rewrite split_from_no_occurrence by exact Hno. reflexivity.
  - destruct pre as [|c pre].
    { apply (IH "" cur t); [simpl; lia|exact Hno]. }
    rewrite str_app_cons, split_from_cons.
    destruct (strip_prefix "v=" (String c (pre +:+ "v=" +:+ t))) as [r|] eqn:E.
    + cbn [strip_prefix] in E. destruct (Ascii.eqb "v"%char c); [|discriminate].
      destruct pre as [|b pre].
      * rewrite str_app_nil_l in E. change ("v=" +:+ t) with (String "v" (String "=" t)) in E.
        cbn in E. discriminate.
      * rewrite str_app_cons in E.
        destruct (Ascii.eqb "="%char b); [|discriminate].
        cbn [strip_prefix] in E. injection E as <-.
        rewrite last_cons, IH; [reflexivity|simpl in Hlen; lia|exact Hno].
    + apply IH; [simpl in Hlen; lia|exact Hno].
Qed.

Lemma split_amp_first v : forall cur post,
  ~ occurs "&" v ->
  list_first (split_from "&"%char "" cur (v +:+ "&" +:+ post)) = Ok (cur +:+ v).
Proof.
  induction v as [|c v IH]; intros cur post Hno.
  - rewrite str_app_nil_l, str_app_nil_r.
    change ("&" +:+ post) with (String "&" post).
    rewrite split_from_cons. reflexivity.
  - rewrite str_app_cons, split_from_cons. cbn [strip_prefix].
    destruct (Ascii.eqb_spec "&"%char c) as [<-|Hc].
    + exfalso. apply Hno. exists "", v. reflexivity.
    + rewrite IH.
      * rewrite str_app_assoc. reflexivity.
      * intros H. apply Hno, occurs_cons, H.
Qed.

Lemma after_last_v_split url t :
  after_last "v=" url t -> rbind (str_split url "v=") list_last = Ok t.
Proof.
  intros [[pre [-> Hno]]|[Hno ->]]; cbn [str_split rbind]; unfold list_last.
  - rewrite (split_v_last (String.length pre)); [reflexivity|lia|exact Hno].
  - rewrite split_from_no_occurrence by exact Hno. reflexivity.
Qed.

Lemma up_to_first_amp_split t v :
  up_to_first "&" t v -> rbind (str_split t "&") list_first = Ok v.
Proof.
  intros [[post [-> Hno]]|[Hno ->]]; cbn [str_split rbind].
  - rewrite split_amp_first by exact Hno. reflexivity.
  - rewrite split_from_no_occurrence by exact Hno. reflexivity.
Qed.

Lemma video_id_spec_extract url vid :
  video_id_spec url vid -> extract_video_id url = Ok vid.
Proof.
  intros [t [Ha Hu]]. unfold extract_video_id.
  apply after_last_v_split in Ha. apply up_to_first_amp_split in Hu.
  destruct (str_split url "v=") as [parts|]; [|discriminate]. cbn [rbind] in *.
  rewrite Ha. cbn [rbind]. exact Hu.
Qed.

(** ** C9: [extract_video_id] *)

Example extract_watch :
  extract_video_id "https://www.youtube.com/watch?v=t1e8gqXLbsU" = Ok "t1e8gqXLbsU".
Proof. reflexivity. Qed.

Example extract_watch_amp :
  extract_video_id "https://www.youtube.com/watch?v=t1e8gqXLbsU&t=10s" = Ok "t1e8gqXLbsU".
Proof. reflexivity. Qed.

Example extract_last_v :
  extract_video_id "https://www.youtube.com/watch?v=first&next=v=second&t=1" = Ok "second".
Proof. reflexivity. Qed.

(** C9. For every URL, [extract_video_id] returns (it never raises) the text
    strictly between the last occurrence of ["v="] and the first ["&"] after
    it, or up to the end of the string when no ["&"] follows; a URL without
    ["v="] is returned whole up to its first ["&"], so that a [youtu.be]
    short link comes back as the link itself rather than as a video id. *)
Theorem extract_video_id_between (url : string) :
  (exists vid, extract_video_id url = Ok vid) /\
  (forall vid, extract_video_id url = Ok vid <-> video_id_spec url vid) /\
  (~ occurs "v=" url -> forall vid, extract_video_id url = Ok vid -> up_to_first "&" url vid) /\
  extract_video_id "https://youtu.be/t1e8gqXLbsU" = Ok "https://youtu.be/t1e8gqXLbsU".
Proof.
  destruct (after_last_exists "v" "=" url) as [t Ht].
  destruct (up_to_first_exists "&" "" t) as [v Hv].
  assert (Hs : video_id_spec url v) by (exists t; auto).
  pose proof (video_id_spec_extract _ _ Hs) as He.
  split; [eauto|]. split; [|split; [|reflexivity]].
  - intros vid. split; [|apply video_id_spec_extract].
    intros H. rewrite He in H. injection H as <-. exact Hs.
  - intros Hno vid H. rewrite He in H. injection H as <-.
    destruct Ht as [[pre [-> _]]|[_ ->]]; [|exact Hv].
    exfalso. apply Hno. exists pre, t. reflexivity.
Qed.

(** ** The schema contract *)


Lemma coerce_has_type t : forall v v', coerce t v = Some v' -> has_type t v' = true.
Proof.
  induction t as [| | |e IH| |e IH]; intros v v' H; destruct v; simpl in H;
    try discriminate; try (injection H as <-; reflexivity);
    try (apply IH in H; destruct v'; simpl; auto; fail).
  - destruct (float_of_Z z); [injection H as <-; reflexivity|discriminate].
  - destruct (mapM (coerce e) l) as [l'|] eqn:E; [|discriminate].
    injection H as <-. simpl. apply mapM_Some_1 in E.
    induction E as [|x y l l' Hxy _ IHl]; [reflexivity|].
    simpl. rewrite (IH _ _ Hxy). exact IHl.
Qed.

(** Facts about the validation of one raw input. *)
Section OneInput.

Variable raw : gmap string pyval.

(** A failed field check names the field it was made for. *)
Lemma check_field_error_path f e : check_field raw f = inl e -> fe_path e = f_name f.
Proof.
  unfold check_field. intros H.
  destruct (raw !! f_name f) as [v|].
  - destruct (coerce (f_type f) v); [discriminate|]. injection H as <-. reflexivity.
  - destruct (f_default f); [discriminate|]. injection H as <-. reflexivity.
Qed.

Lemma validate_fields_reports fs f e :
  In f fs -> check_field raw f = inl e -> In e (fst (validate_fields fs raw)).
Proof.
  induction fs as [|g fs IH]; intros Hin He; [destruct Hin|].
  simpl. destruct (validate_fields fs raw) as [errs inst] eqn:E.
  destruct Hin as [->|Hin].
  - rewrite He. left. reflexivity.
  - specialize (IH Hin He). simpl in IH.
    destruct (check_field raw g); simpl; auto.
Qed.

Lemma validate_fields_clean fs :
  (forall f, In f fs -> exists v, check_field raw f = inr v) ->
  fst (validate_fields fs raw) = [].
Proof.
  induction fs as [|g fs IH]; intros H; [reflexivity|].
  simpl. destruct (validate_fields fs raw) as [errs inst] eqn:E.
  destruct (H g (or_introl eq_refl)) as [v ->]. simpl.
  apply IH. intros f Hf. apply H. right. exact Hf.
Qed.

Lemma validate_Invalid_iff s errs :
  validate s raw = Invalid errs <->
  fst (validate_fields (schema_fields s) raw) = errs /\ errs <> [].
Proof.
  unfold validate. destruct (validate_fields (schema_fields s) raw) as [[|e es] inst]; simpl.
  - split; [discriminate|]. intros [<- H]. congruence.
  - split; [intros H; injection H as <-; split; [reflexivity|discriminate]|].
    intros [<- _]. reflexivity.
Qed.

Lemma validate_Valid_iff s inst :
  validate s raw = Valid inst <-> validate_fields (schema_fields s) raw = ([], inst).
Proof.
  unfold validate. destruct (validate_fields (schema_fields s) raw) as [[|e es] i]; simpl.
  - split; intros H; injection H as <-; reflexivity.
  - split; discriminate.
Qed.

(** What a clean pass over the declared fields leaves in the instance. *)
Lemma validate_fields_instance fs inst :
  validate_fields fs raw = ([], inst) ->
  dom inst = list_to_set (map f_name fs) /\
  (forall f, In f fs -> NoDup (map f_name fs) ->
     exists v, check_field raw f = inr v /\ inst !! f_name f = Some v).
Proof.
  revert inst. induction fs as [|g fs IH]; intros inst H.
  - simpl in H. injection H as <-. split; [apply dom_empty_L|intros f []].
  - simpl in H. destruct (validate_fields fs raw) as [errs i] eqn:E.
    destruct (check_field raw g) as [e|v] eqn:Eg; [discriminate|].
    injection H as -> <-. destruct (IH _ eq_refl) as [Hdom Hf]. split.
    + rewrite dom_insert_L, Hdom. reflexivity.
    + intros f [->|Hin] Hnd.
      * exists v. split; [exact Eg|apply lookup_insert_eq].
      * simpl in Hnd. apply NoDup_cons in Hnd as [Hnot Hnd].
        destruct (Hf f Hin Hnd) as [v' [Hc Hl]]. exists v'. split; [exact Hc|].
        rewrite lookup_insert_ne; [exact Hl|].
        intros Heq. apply Hnot. rewrite Heq. apply list_elem_of_In, in_map, Hin.
Qed.

(** A value that passed validation is an instance of the schema. *)
Lemma validate_sound s inst :
  well_formed s -> validate s raw = Valid inst -> instance_of s inst.
Proof.
  intros [Hnd Hdef] H. apply validate_Valid_iff, validate_fields_instance in H.
  destruct H as [Hdom Hf]. split; [exact Hdom|].
  apply Forall_forall. intros f Hin%list_elem_of_In.
  destruct (Hf f Hin Hnd) as [v [Hc Hl]]. exists v. split; [exact Hl|].
  unfold check_field in Hc. destruct (raw !! f_name f) as [x|].
  - destruct (coerce (f_type f) x) as [x'|] eqn:Ex; [|discriminate].
    injection Hc as <-. eapply coerce_has_type, Ex.
  - destruct (f_default f) as [d|] eqn:Ed; [|discriminate].
    injection Hc as <-. rewrite Forall_forall in Hdef.
    apply (Hdef f); [apply list_elem_of_In, Hin|exact Ed].
Qed.

End OneInput.

Lemma construct_sound s kwargs inst :
  well_formed s -> construct s kwargs = Ok inst -> instance_of s inst.
Proof.
  unfold construct. intros Hwf H.
  destruct (validate s kwargs) as [i|errs] eqn:E; [|discriminate].
  injection H as <-. eapply validate_sound; eassumption.
Qed.

Lemma output_schema_well_formed : well_formed YouTubeTranscriptToolOutputSchema.
Proof.
  split.
  - apply (bool_decide_unpack _). vm_compute. exact I.
  - simpl. repeat (apply Forall_cons; split; [discriminate|]). apply Forall_nil. exact I.
Qed.

Lemma input_schema_well_formed : well_formed YouTubeTranscriptToolInputSchema.
Proof.
  split.
  - apply (bool_decide_unpack _). vm_compute. exact I.
  - simpl. apply Forall_cons. split; [discriminate|].
    apply Forall_cons. split; [|apply Forall_nil; exact I].
    simpl. intros d H. injection H as <-. reflexivity.
Qed.

(** ** C5: construction of a schema instance *)

(** C5, as stated, fails: with the only required field, [video_url], present
    and a string, construction still fails when the optional [language] is
    given a value that is neither a string nor [None]. *)
Lemma construction_fails_on_bad_optional_field :
  (forall f, In f (schema_fields YouTubeTranscriptToolInputSchema) ->
     f_required f = true ->
     exists v v', bad_language_kwargs !! f_name f = Some v /\ coerce (f_type f) v = Some v') /\
  validate YouTubeTranscriptToolInputSchema bad_language_kwargs =
    Invalid [mkFieldError "language" (TOptional TString) (Found "list")].
Proof.
  split; [|reflexivity].
  intros f [<-|[<-|[]]] Hreq; [|discriminate Hreq].
  eexists _, _. split; reflexivity.
Qed.

(** C5 (amended). For every schema and raw input: a declared field that is
    required and missing, or present and type-invalid, makes construction
    fail with a validation error that names that field; and construction
    succeeds when every required field is present and every field that is
    present, required or optional, is type-valid. For the tool's input schema:
    a missing or non-string [video_url] is named in the error, and with a
    string [video_url] the optional [language] may be omitted. *)
Theorem construction_checks_declared_fields (s : Schema) (raw : gmap string pyval) :
  (forall f, In f (schema_fields s) ->
     (raw !! f_name f = None /\ f_required f = true) \/
     (exists v, raw !! f_name f = Some v /\ coerce (f_type f) v = None) ->
     exists errs, validate s raw = Invalid errs /\ In (f_name f) (map fe_path errs)) /\
  ((forall f, In f (schema_fields s) ->
      match raw !! f_name f with
      | Some v => coerce (f_type f) v <> None
      | None => f_required f = false
      end) ->
   exists inst, validate s raw = Valid inst /\ (well_formed s -> instance_of s inst)) /\
  (forall kwargs : gmap string pyval,
     (forall u, kwargs !! "video_url" <> Some (VStr u)) ->
     exists errs, validate YouTubeTranscriptToolInputSchema kwargs = Invalid errs /\
                  In "video_url" (map fe_path errs)) /\
  (forall (kwargs : gmap string pyval) u,
     kwargs !! "video_url" = Some (VStr u) -> kwargs !! "language" = None ->
     validate YouTubeTranscriptToolInputSchema kwargs =
       Valid {[ "video_url" := VStr u; "language" := VNone ]}).
Proof.
  assert (Hfail : forall s raw f, In f (schema_fields s) ->
     (raw !! f_name f = None /\ f_required f = true) \/
     (exists v, raw !! f_name f = Some v /\ coerce (f_type f) v = None) ->
     exists errs, validate s raw = Invalid errs /\ In (f_name f) (map fe_path errs)).
  { clear. intros s raw f Hin Hbad.
    assert (He : exists e, check_field raw f = inl e).
    { unfold check_field, f_required in *. destruct Hbad as [[-> Hreq]|[v [-> Hc]]].
      - destruct (f_default f); [discriminate|]. eauto.
      - rewrite Hc. eauto. }
    destruct He as [e He].
    pose proof (validate_fields_reports _ _ _ _ Hin He) as Hrep.
    exists (fst (validate_fields (schema_fields s) raw)). split.
    - apply validate_Invalid_iff. split; [reflexivity|].
      intros Hnil. rewrite Hnil in Hrep. destruct Hrep.
    - rewrite <- (check_field_error_path _ _ _ He). apply in_map, Hrep. }
  split; [apply Hfail|]. split; [|split].
  - intros Hok.
    assert (Hclean : fst (validate_fields (schema_fields s) raw) = []).
    { apply validate_fields_clean. intros f Hin. specialize (Hok f Hin).
      unfold check_field, f_required in *. destruct (raw !! f_name f) as [v|].
      - destruct (coerce (f_type f) v); [eauto|congruence].
      - destruct (f_default f); [eauto|discriminate]. }
    destruct (validate_fields (schema_fields s) raw) as [errs inst] eqn:E.
    simpl in Hclean. subst errs. exists inst.
    assert (Hv : validate s raw = Valid inst) by (apply validate_Valid_iff, E).
    split; [exact Hv|]. intros Hwf. eapply validate_sound; eassumption.
  - intros kwargs Hbad.
    apply (Hfail YouTubeTranscriptToolInputSchema kwargs
             (mkField "video_url" TString None
                "URL of the YouTube video to fetch the transcript for.")).
    + left. reflexivity.
    + simpl. destruct (kwargs !! "video_url") as [v|] eqn:E; [right|left; auto].
      exists v. split; [reflexivity|]. destruct v; try reflexivity.
      exfalso. apply (Hbad s0). reflexivity.
  - intros kwargs u Hu Hl. unfold validate. simpl. unfold check_field. simpl.
    rewrite Hu, Hl. reflexivity.
Qed.

(** ** The tool's methods: effects *)

Section Effects.

Import YouTubeTranscriptTool.

Lemma bind_Ok {A B} (m : M A) (k : A -> M B) (w : world) st b st' :
  bind m k w st = (Ok b, st') ->
  exists a st1, m w st = (Ok a, st1) /\ k a w st1 = (Ok b, st').
Proof.
  unfold bind. destruct (m w st) as [[a|e] st1]; [eauto|discriminate].
Qed.

Lemma lift_Ok {A} (r : result A) (w : world) st a st' :
  lift r w st = (Ok a, st') -> r = Ok a /\ st' = st.
Proof. unfold lift. intros H. injection H as -> ->. auto. Qed.

Lemma preserves_ret {A} (a : A) : preserves_self (ret a).
Proof. intros w st. reflexivity. Qed.

Lemma preserves_raise {A} e : preserves_self (@raise A e).
Proof. intros w st. reflexivity. Qed.

Lemma preserves_lift {A} (r : result A) : preserves_self (lift r).
Proof. intros w st. reflexivity. Qed.

Lemma preserves_getattr name : preserves_self (getattr name).
Proof. intros w st. unfold getattr. destruct (self st !! name); reflexivity. Qed.

Lemma preserves_external c : preserves_self (external c).
Proof. intros w st. reflexivity. Qed.

Lemma preserves_builtins_sum l : preserves_self (builtins_sum l).
Proof. intros w st. reflexivity. Qed.


Lemma preserves_bind {A B} (m : M A) (k : A -> M B) :
  preserves_self m -> (forall a, preserves_self (k a)) -> preserves_self (bind m k).
Proof.
  intros Hm Hk w st. unfold bind. specialize (Hm w st).
  destruct (m w st) as [[a|e] st1]; simpl in Hm.
  - rewrite Hk. exact Hm.
  - exact Hm.
Qed.

Lemma preserves_try_except {A} (m : M A) handler :
  preserves_self m ->
  (forall e h, handler e = Some h -> preserves_self h) ->
  preserves_self (try_except m handler).
Proof.
  intros Hm Hh w st. unfold try_except. specialize (Hm w st).
  destruct (m w st) as [[a|e] st1]; simpl in Hm; [exact Hm|].
  destruct (handler e) as [h|] eqn:E; [|exact Hm].
  rewrite (Hh _ _ E). exact Hm.
Qed.

Lemma preserves_if {A} (b : bool) (m1 m2 : M A) :
  preserves_self m1 -> preserves_self m2 -> preserves_self (if b then m1 else m2).
Proof. destruct b; auto. Qed.

(** One step of a frame proof, chosen by the shape of the computation. *)
Ltac frame_step :=
  lazymatch goal with
  | |- preserves_self (bind _ _) => apply preserves_bind; [|intros ?]
  | |- preserves_self (lift _) => apply preserves_lift
  | |- preserves_self (ret _) => apply preserves_ret
  | |- preserves_self (raise _) => apply preserves_raise
  | |- preserves_self (getattr _) => apply preserves_getattr
  | |- preserves_self (external _) => apply preserves_external
  | |- preserves_self (builtins_sum _) => apply preserves_builtins_sum
  | |- preserves_self (if _ then _ else _) => apply preserves_if
  end.

Lemma preserves_get_transcript params video_id :
  preserves_self (get_transcript params video_id).
Proof. unfold get_transcript. repeat frame_step. Qed.

Lemma preserves_fetch_video_metadata video_id :
  preserves_self (fetch_video_metadata video_id).
Proof. unfold fetch_video_metadata. repeat frame_step. Qed.

Lemma preserves_run params : preserves_self (run params).
Proof.
  unfold run. repeat frame_step.
  - apply preserves_try_except; [apply preserves_get_transcript|].
    intros e h H. destruct (caught e); [|discriminate].
    injection H as <-. frame_step.
  - apply preserves_fetch_video_metadata.
Qed.

End Effects.

(** ** C1: the value returned by [run] *)

Lemma has_type_string_list l :
  forallb (has_type TString) l = true -> exists c, l = map VStr c.
Proof.
  induction l as [|v l IH]; intros H.
  - exists []. reflexivity.
  - simpl in H. apply andb_prop in H as [Hv Hl].
    destruct (IH Hl) as [c ->]. destruct v; try discriminate.
    exists (s :: c). reflexivity.
Qed.

(** The fields of an instance of the output schema, spelled out. *)
Lemma output_instance_fields out :
  instance_of YouTubeTranscriptToolOutputSchema out ->
  exists t d c m,
    out !! "transcript" = Some (VStr t) /\
    out !! "duration" = Some (VFloat d) /\
    out !! "comments" = Some (VList (map VStr c)) /\
    out !! "metadata" = Some (VDict m).
Proof.
  intros [_ H]. simpl in H.
  apply Forall_cons in H as [(vt & Ht & Tt) H].
  apply Forall_cons in H as [(vd & Hd & Td) H].
  apply Forall_cons in H as [(vc & Hc & Tc) H].
  apply Forall_cons in H as [(vm & Hm & Tm) _].
  simpl in *.
  destruct vt; try discriminate. destruct vd; try discriminate.
  destruct vc; try discriminate. destruct vm; try discriminate.
  apply has_type_string_list in Tc as [c ->].
  eauto 10.
Qed.

(** C1. Whenever [run] returns, the value it returns is a validated instance
    of [YouTubeTranscriptToolOutputSchema]: it has exactly the four declared
    fields, with [transcript] a string, [duration] a number, [comments] a
    list of strings and [metadata] a mapping. *)
Theorem run_output_conforms params (w : world) st out st' :
  YouTubeTranscriptTool.run params w st = (Ok out, st') ->
  instance_of YouTubeTranscriptToolOutputSchema out /\
  exists t d c m,
    out !! "transcript" = Some (VStr t) /\
    out !! "duration" = Some (VFloat d) /\
    out !! "comments" = Some (VList (map VStr c)) /\
    out !! "metadata" = Some (VDict m).
Proof.
  intros H. unfold YouTubeTranscriptTool.run in H.
  repeat (apply bind_Ok in H as (? & ? & _ & H)).
  apply lift_Ok in H as [H _].
  assert (Hi : instance_of YouTubeTranscriptToolOutputSchema out).
  { eapply construct_sound; [apply output_schema_well_formed|exact H]. }
  split; [exact Hi|apply output_instance_fields, Hi].
Qed.

(** ** C7: [run] leaves the tool as it was *)

(** C7. For every input and every answer of the outside world, a call of
    [run], whether it returns or raises, leaves the attributes of the tool,
    [api_key] among them, as they were; so does any sequence of calls. *)
Theorem run_leaves_tool_unchanged params (w : world) st :
  self (snd (YouTubeTranscriptTool.run params w st)) = self st /\
  self (snd (YouTubeTranscriptTool.run params w st)) !! "api_key" = self st !! "api_key" /\
  forall inputs, self (YouTubeTranscriptTool.run_all inputs w st) = self st.
Proof.
  pose proof (preserves_run params w st) as H.
  split; [exact H|]. split; [rewrite H; reflexivity|].
  intros inputs. revert st H. induction inputs as [|p inputs IH]; intros st _.
  - reflexivity.
  - simpl. rewrite IH by apply preserves_run. apply preserves_run.
Qed.

(** ** C6: the tool is determined by its configuration *)

(** C6. Two constructions of the tool from the same configuration end in the
    same way and with the same attributes, [api_key] in particular, whatever
    the environment and the outside world are at either construction; the
    constructor makes no call at all, hence reads nothing from the
    environment; and [run] on the two tools gives the same result for the
    same input and the same answers of the outside world. *)
Theorem tool_depends_only_on_config config (w1 : world) (w2 : world) cs1 cs2 :
  let t1 := YouTubeTranscriptTool.__init__ config w1 (YouTubeTranscriptTool.fresh cs1) in
  let t2 := YouTubeTranscriptTool.__init__ config w2 (YouTubeTranscriptTool.fresh cs2) in
  fst t1 = fst t2 /\
  self (snd t1) = self (snd t2) /\
  self (snd t1) !! "api_key" = self (snd t2) !! "api_key" /\
  (forall v, fst t1 = Ok v -> self (snd t1) !! "api_key" = config !! "api_key") /\
  calls (snd t1) = cs1 /\ calls (snd t2) = cs2 /\
  forall params w cs,
    YouTubeTranscriptTool.run params w (mkState (self (snd t1)) cs) =
    YouTubeTranscriptTool.run params w (mkState (self (snd t2)) cs).
Proof.
  unfold YouTubeTranscriptTool.__init__, YouTubeTranscriptTool.BaseTool__init__,
    YouTubeTranscriptTool.fresh, bind, setattr, lift, attr. simpl.
  destruct (config !! "api_key") as [k|]; simpl.
  - rewrite !lookup_insert_eq. repeat split; auto.
  - repeat split; auto; discriminate.
Qed.

(** The environment is read where the configuration class is defined: the
    default of [api_key] is the one call [os.getenv("YOUTUBE_API_KEY")]. *)
Lemma config_default_reads_environment (w : world) st :
  YouTubeTranscriptTool.config_class_default w st =
    (w (calls st) (Getenv "YOUTUBE_API_KEY"),
     mkState (self st) (calls st ++ [Getenv "YOUTUBE_API_KEY"])).
Proof. reflexivity. Qed.

(** ** C8: no call is repeated *)

Section Calls.

Import YouTubeTranscriptTool.

(** Case analysis on the innermost scrutinee of the goal. *)
Ltac destruct_innermost :=
  match goal with
  | |- context [match ?x with _ => _ end] =>
      lazymatch x with
      | context [match _ with _ => _ end] => fail
      | _ => destruct x eqn:?
      end
  end.

Ltac ok_from_hyp :=
  match goal with
  | H : ?x = Ok _ |- is_ok ?x = true => rewrite H; reflexivity
  end.

(** The calls of one [run], in order: the transcript fetch, then the
    construction of the API client, then the metadata request; each is made
    only if everything before it went well. *)
Lemma run_calls_shape params (w : world) st :
  let new_calls := calls (snd (run params w st)) in
  new_calls = calls st \/
  (exists vid langs, new_calls = calls st ++ [GetTranscript vid langs]) \/
  (exists vid langs key,
     new_calls = calls st ++ [GetTranscript vid langs; Build "youtube" "v3" key] /\
     is_ok (w (calls st) (GetTranscript vid langs)) = true) \/
  (exists vid langs key,
     new_calls = calls st ++ [GetTranscript vid langs; Build "youtube" "v3" key;
                              VideosListExecute key "snippet" vid] /\
     is_ok (w (calls st) (GetTranscript vid langs)) = true /\
     is_ok (w (calls st ++ [GetTranscript vid langs]) (Build "youtube" "v3" key)) = true).
Proof.
  unfold run, get_transcript, fetch_video_metadata, try_except, bind, lift,
    builtins_sum, external, getattr, raise, ret.
  cbn zeta.
  repeat (destruct_innermost; cbn [fst snd self calls]);
    rewrite <- ?app_assoc; cbn [app];
    first
      [ left; reflexivity
      | right; left; eexists _, _; reflexivity
      | right; right; left; eexists _, _, _; split; [reflexivity|ok_from_hyp]
      | right; right; right; eexists _, _, _;
        split; [reflexivity|split; ok_from_hyp] ].
Qed.

Lemma stops_at_failure_nil (w : world) base : stops_at_failure w base [].
Proof. intros [|x before] c after H; discriminate H. Qed.

Lemma stops_at_failure_one (w : world) base c1 : stops_at_failure w base [c1].
Proof.
  intros [|x [|y before]] c after H _; simplify_eq/=; [reflexivity|..].
  all: destruct before; discriminate.
Qed.

Lemma stops_at_failure_cons (w : world) base c1 new :
  is_ok (w base c1) = true ->
  stops_at_failure w (base ++ [c1]) new ->
  stops_at_failure w base (c1 :: new).
Proof.
  intros Hok Hnew [|x before] c after H Hfail.
  - injection H as <- <-. rewrite app_nil_r in Hfail. congruence.
  - injection H as <- H. apply (Hnew before c after H).
    rewrite <- app_assoc. exact Hfail.
Qed.

End Calls.

(** C8. Within one call of [run] the transcript fetch is attempted at most
    once and the metadata request (like the construction of the API client
    before it) at most once; and no call at all, so in particular no second
    attempt, follows a call that failed -- even when the outside world would
    have answered a second attempt differently. *)
Theorem run_makes_no_retries params (w : world) st :
  exists new,
    calls (snd (YouTubeTranscriptTool.run params w st)) = calls st ++ new /\
    count_calls is_transcript_fetch new <= 1 /\
    count_calls is_client_build new <= 1 /\
    count_calls is_metadata_request new <= 1 /\
    stops_at_failure w (calls st) new.
Proof.
  destruct (run_calls_shape params w st)
    as [H|[(vid & langs & H)|[(vid & langs & key & H & Ok1)|(vid & langs & key & H & Ok1 & Ok2)]]].
  - exists []. rewrite app_nil_r. split; [exact H|].
    repeat split; try (unfold count_calls; simpl; lia). apply stops_at_failure_nil.
  - eexists. split; [exact H|].
    repeat split; try (unfold count_calls; simpl; lia). apply stops_at_failure_one.
  - eexists. split; [exact H|].
    repeat split; try (unfold count_calls; simpl; lia).
    apply stops_at_failure_cons; [exact Ok1|apply stops_at_failure_one].
  - eexists. split; [exact H|].
    repeat split; try (unfold count_calls; simpl; lia).
    apply stops_at_failure_cons; [exact Ok1|].
    apply stops_at_failure_cons; [exact Ok2|apply stops_at_failure_one].
Qed.

(** A failed fetch is not attempted again, although a second attempt would
    have been answered. *)
Example run_does_not_retry_a_flaky_fetch :
  let fetch := GetTranscript "t1e8gqXLbsU" (Some (VList [VStr "en"])) in
  YouTubeTranscriptTool.run example_kwargs flaky_world example_tool =
    (Raise (mkExn "TooManyRequests" "YouTube is receiving too many requests"),
     mkState (self example_tool) [fetch]) /\
  is_ok (flaky_world [fetch] fetch) = true.
Proof. split; vm_compute; reflexivity. Qed.

(** ** C10: what [run] returns *)

Section Output.

Import YouTubeTranscriptTool.







End Output.

(** *** Joins and sums, read on strings, floats and integers *)

Lemma str_join_concat sep l : str_join sep l = String.concat sep l.
Proof.
  induction l as [|x [|y l] IH]; [reflexivity|reflexivity|].
  change (str_join sep (x :: y :: l)) with (x +:+ sep +:+ str_join sep (y :: l)).
  rewrite IH. reflexivity.
Qed.

Lemma float_of_Z_0 : float_of_Z 0 = Ok 0%float.
Proof. vm_compute. reflexivity. Qed.


(** Up to CPython 3.11: floats after a float total. *)
Lemma py_sum_floats_from (ds : list float) (a : float) :
  fold_left (fun acc x => rbind acc (fun a => py_add_num a x)) (map VFloat ds) (Ok (VFloat a))
  = Ok (VFloat (fold_left PrimFloat.add ds a)).
Proof.
  revert a. induction ds as [|d ds IH]; intros a; [reflexivity|].
  simpl. apply IH.
Qed.

(** From CPython 3.12 on: floats in the float loop. *)
Lemma sum_add_floats_from (ds : list float) (f c : float) :
  rbind (fold_left (fun acc x => rbind acc (fun total => sum_add total x))
           (map VFloat ds) (Ok (FloatTotal f c)))
        (fun total => Ok (sum_result total))
  = Ok (VFloat (neumaier_sum f c ds)).
Proof.
  revert f c. induction ds as [|d ds IH]; intros f c.
  - cbn [map fold_left rbind sum_result neumaier_sum]. unfold compensated.
    rewrite andb_comm. reflexivity.
  - cbn [map fold_left neumaier_sum].
    cbn [rbind sum_add].
    destruct (PrimFloat.leb (PrimFloat.abs d) (PrimFloat.abs f)); apply IH.
Qed.

(** The sum of float durations, as the output schema stores it: the
    interpreter's float sum. *)
Lemma py_sum_floats py (ds : list float) total :
  py_sum py (map VFloat ds) = Ok total ->
  coerce TNumber total = Some (VFloat (float_sum py ds)).
Proof.
  destruct py; unfold py_sum, float_sum;
    (destruct ds as [|d ds]; cbn [map fold_left rbind];
     [intros H; injection H as <-; cbn [coerce sum_result]; rewrite float_of_Z_0; reflexivity|]).
  - change (py_add_num (VInt 0) (VFloat d)) with
      (rbind (float_of_Z 0) (fun f => Ok (VFloat (f + d)%float))).
    rewrite float_of_Z_0. cbn [rbind]. rewrite py_sum_floats_from.
    intros H. injection H as <-. reflexivity.
  - change (sum_add (IntTotal 0) (VFloat d)) with
      (rbind (rbind (float_of_Z 0) (fun f => Ok (VFloat (f + d)%float)))
             (fun v => Ok (match v with VFloat f => FloatTotal f 0 | _ => ObjectTotal v end))).
    rewrite float_of_Z_0. cbn [rbind]. rewrite sum_add_floats_from.
    intros H. injection H as <-. reflexivity.
Qed.





(** *** Segments as the transcript API returns them *)

Lemma text_fields_typed segs texts :
  text_fields (map segment_value segs) texts -> texts = map seg_text segs.
Proof.
  unfold text_fields. revert texts. induction segs as [|s segs IH]; intros texts H.
  - inversion H. reflexivity.
  - inversion H as [|x y l l' Hxy Hl]; subst. simpl. f_equal; [|apply IH, Hl].
    vm_compute in Hxy. injection Hxy as <-. reflexivity.
Qed.

Lemma duration_fields_typed segs durations :
  duration_fields (map segment_value segs) durations ->
  durations = map VFloat (map seg_duration segs).
Proof.
  unfold duration_fields. revert durations. induction segs as [|s segs IH]; intros ds H.
  - inversion H. reflexivity.
  - inversion H as [|x y l l' Hxy Hl]; subst. simpl. f_equal; [|apply IH, Hl].
    vm_compute in Hxy. injection Hxy as <-. reflexivity.
Qed.

(** On a list of segments with string texts and float durations the
    reference output has the joined texts and the interpreter's float sum of
    the durations. *)
Lemma reference_output_typed py video_id segs snippet out :
  reference_output py video_id (map segment_value segs) snippet out ->
  out !! "transcript" = Some (VStr (String.concat " " (map seg_text segs))) /\
  out !! "duration" = Some (VFloat (float_sum py (map seg_duration segs))).
Proof.
  intros (texts & durations & d & metadata & Ht & Hd & Hfloats & _ & _ & ->).
  apply text_fields_typed in Ht as ->.
  apply duration_fields_typed in Hd as ->.
  rewrite (Hfloats _ eq_refl).
  split; reflexivity.
Qed.


(** The output on the example is an instance of the output schema. *)
Lemma run_output_conforms_witness :
  instance_of YouTubeTranscriptToolOutputSchema example_output.
Proof.
  apply (run_output_conforms example_kwargs example_world example_tool example_output
           (snd (YouTubeTranscriptTool.run example_kwargs example_world example_tool))).
  vm_compute. reflexivity.
Defined.

(** ** C2: how [run] fails *)

Section Failures.

Import YouTubeTranscriptTool.

Lemma rmapM_Forall2 {A B} (f : A -> result B) l l' :
  Forall2 (fun x y => f x = Ok y) l l' -> rmapM f l = Ok l'.
Proof.
  induction 1 as [|x y l l' Hxy _ IH]; [reflexivity|].
  simpl. rewrite Hxy. simpl. rewrite IH. reflexivity.
Qed.

Lemma py_join_strings sep ss : py_join sep (map VStr ss) = Ok (str_join sep ss).
Proof.
  unfold py_join.
  assert (E : rmapM (fun v => match v with
                              | VStr s => Ok s
                              | _ => Raise (mkExn "TypeError" "sequence item: expected str instance")
                              end) (map VStr ss) = Ok ss).
  { induction ss as [|x ss IH]; [reflexivity|]. simpl. rewrite IH. reflexivity. }
  rewrite E. reflexivity.
Qed.

Lemma fetch_video_metadata_no_items video_id (w : world) st key youtube response items :
  self st !! "api_key" = Some key ->
  w (calls st) (Build "youtube" "v3" key) = Ok youtube ->
  w (calls st ++ [Build "youtube" "v3" key])
    (VideosListExecute key "snippet" video_id) = Ok response ->
  py_getitem response "items" = Ok items ->
  py_truthy items = false ->
  fetch_video_metadata video_id w st =
    (Raise (mkExn "Exception" (no_metadata_message video_id)),
     mkState (self st)
       (calls st ++ [Build "youtube" "v3" key; VideosListExecute key "snippet" video_id])).
Proof.
  intros Hkey Hbuild Hexec Hitems Hfalsy.
  unfold fetch_video_metadata, bind, getattr, external, lift, raise.
  rewrite Hkey. cbn [self calls]. rewrite Hbuild, Hexec, Hitems, Hfalsy.
  cbn [negb]. rewrite <- app_assoc. reflexivity.
Qed.

Lemma fetch_video_metadata_request_fails video_id (w : world) st key youtube e :
  self st !! "api_key" = Some key ->
  w (calls st) (Build "youtube" "v3" key) = Ok youtube ->
  w (calls st ++ [Build "youtube" "v3" key])
    (VideosListExecute key "snippet" video_id) = Raise e ->
  fetch_video_metadata video_id w st =
    (Raise e,
     mkState (self st)
       (calls st ++ [Build "youtube" "v3" key; VideosListExecute key "snippet" video_id])).
Proof.
  intros Hkey Hbuild Hexec.
  unfold fetch_video_metadata, bind, getattr, external, lift, raise.
  rewrite Hkey. cbn [self calls]. rewrite Hbuild, Hexec.
  rewrite <- app_assoc. reflexivity.
Qed.

(** [run] up to the metadata lookup, when the transcript fetch went well and
    the segments have the fields that are read. *)
Lemma run_reaches_metadata params (w : world) st url video_id transcripts st1 segments texts durations total :
  params !! "video_url" = Some (VStr url) ->
  extract_video_id url = Ok video_id ->
  get_transcript params video_id w st = (Ok transcripts, st1) ->
  py_iter transcripts = Ok segments ->
  text_fields segments texts ->
  duration_fields segments durations ->
  py_sum (interpreter_of w) durations = Ok total ->
  run params w st =
    bind (fetch_video_metadata video_id)
      (fun metadata =>
         lift (construct YouTubeTranscriptToolOutputSchema
                 {[ "transcript" := VStr (str_join " " texts);
                    "duration" := total;
                    "comments" := VList [];
                    "metadata" := VDict metadata ]})) w st1.
Proof.
  intros Hurl Hvid Hfetch Hiter Htexts Hdurs Hsum. unfold run.
  unfold bind at 1. unfold lift at 1, attr. rewrite Hurl. cbn [rbind as_str].
  unfold bind at 1. unfold lift at 1. rewrite Hvid.
  unfold bind at 1. unfold try_except. rewrite Hfetch.
  unfold bind at 1. unfold lift at 1. rewrite Hiter. cbn [rbind].
  rewrite (rmapM_Forall2 _ segments (map VStr texts)).
  2:{ apply Forall2_fmap_r. exact Htexts. }
  unfold bind at 1. unfold lift at 1. rewrite py_join_strings.
  unfold bind at 1. unfold lift at 1.
  rewrite (rmapM_Forall2 _ segments durations) by exact Hdurs.
  unfold bind at 1. unfold builtins_sum at 1. rewrite Hsum.
  reflexivity.
Qed.

End Failures.

(** C2 (amended). [run] raises a plain [Exception] -- there is no [ToolError];
    the message names the video id and, for a failed fetch, the cause, but not
    the tool -- when the transcript fetch raises [NoTranscriptFound] or
    [TranscriptsDisabled], and when the metadata lookup returns no items. Any
    other exception of the transcript fetch, and an exception of the metadata
    request, is raised by [run] unchanged, so these are not the only ways
    [run] fails. In every failing case [run] raises and returns no result. *)
Theorem run_raises_plain_exception params (w : world) st url video_id :
  params !! "video_url" = Some (VStr url) ->
  extract_video_id url = Ok video_id ->
  (forall e st1,
     YouTubeTranscriptTool.get_transcript params video_id w st = (Raise e, st1) ->
     YouTubeTranscriptTool.run params w st =
       (Raise (if YouTubeTranscriptTool.caught e
               then mkExn "Exception" (transcript_failure_message video_id (exn_msg e))
               else e), st1)) /\
  (forall transcripts st1 segments texts durations total key youtube,
     YouTubeTranscriptTool.get_transcript params video_id w st = (Ok transcripts, st1) ->
     py_iter transcripts = Ok segments ->
     text_fields segments texts ->
     duration_fields segments durations ->
     py_sum (interpreter_of w) durations = Ok total ->
     self st1 !! "api_key" = Some key ->
     w (calls st1) (Build "youtube" "v3" key) = Ok youtube ->
     let request := VideosListExecute key "snippet" video_id in
     let st2 := mkState (self st1) (calls st1 ++ [Build "youtube" "v3" key; request]) in
     (forall response items,
        w (calls st1 ++ [Build "youtube" "v3" key]) request = Ok response ->
        py_getitem response "items" = Ok items ->
        py_truthy items = false ->
        YouTubeTranscriptTool.run params w st =
          (Raise (mkExn "Exception" (no_metadata_message video_id)), st2)) /\
     (forall e,
        w (calls st1 ++ [Build "youtube" "v3" key]) request = Raise e ->
        YouTubeTranscriptTool.run params w st = (Raise e, st2))) /\
  (forall e st', YouTubeTranscriptTool.run params w st = (Raise e, st') ->
     forall out st'', YouTubeTranscriptTool.run params w st <> (Ok out, st'')).
Proof.
  intros Hurl Hvid. split; [|split].
  - intros e st1 Hfetch. unfold YouTubeTranscriptTool.run.
    unfold bind at 1. unfold lift at 1, attr. rewrite Hurl.
    cbn [rbind YouTubeTranscriptTool.as_str].
    unfold bind at 1. unfold lift at 1. rewrite Hvid.
    unfold bind at 1. unfold try_except. rewrite Hfetch.
    destruct (YouTubeTranscriptTool.caught e); reflexivity.
  - intros transcripts st1 segments texts durations total key youtube
      Hfetch Hiter Htexts Hdurs Hsum Hkey Hbuild request st2.
    rewrite (run_reaches_metadata _ _ _ _ _ _ _ _ _ _ _
               Hurl Hvid Hfetch Hiter Htexts Hdurs Hsum).
    split.
    + intros response items Hexec Hitems Hfalsy. unfold bind.
      rewrite (fetch_video_metadata_no_items _ _ _ _ _ _ _ Hkey Hbuild Hexec Hitems Hfalsy).
      reflexivity.
    + intros e Hexec. unfold bind.
      rewrite (fetch_video_metadata_request_fails _ _ _ _ _ _ Hkey Hbuild Hexec).
      reflexivity.
  - intros e st' H out st'' H'. congruence.
Qed.

(** C2, as stated, fails. With no transcript, [run] raises a plain
    [Exception], not a [ToolError]; and when the video is unavailable [run]
    fails although the fetch raised neither [NoTranscriptFound] nor
    [TranscriptsDisabled] and the metadata lookup never took place. *)
Lemma run_failure_is_not_a_ToolError :
  (exists e,
     fst (YouTubeTranscriptTool.run example_kwargs no_transcript_world example_tool) = Raise e /\
     e = mkExn "Exception"
           "Failed to fetch transcript for video 't1e8gqXLbsU': No transcripts were found" /\
     is_ToolError e = false) /\
  (exists e,
     fst (YouTubeTranscriptTool.run example_kwargs unavailable_world example_tool) = Raise e /\
     e = mkExn "VideoUnavailable" "The video is no longer available" /\
     is_ToolError e = false /\
     YouTubeTranscriptTool.caught e = false /\
     count_calls is_metadata_request
       (calls (snd (YouTubeTranscriptTool.run example_kwargs unavailable_world example_tool))) = 0).
Proof.
  split; eexists; (split; [vm_compute; reflexivity|]); repeat split.
Qed.

(** The three failures on the example: no transcript, a video that is
    gone, and a metadata response without items. *)
Lemma run_raises_plain_exception_witness :
  fst (YouTubeTranscriptTool.run example_kwargs no_transcript_world example_tool) =
    Raise (mkExn "Exception"
             (transcript_failure_message "t1e8gqXLbsU" "No transcripts were found")) /\
  fst (YouTubeTranscriptTool.run example_kwargs unavailable_world example_tool) =
    Raise (mkExn "VideoUnavailable" "The video is no longer available") /\
  fst (YouTubeTranscriptTool.run example_kwargs no_items_world example_tool) =
    Raise (mkExn "Exception" (no_metadata_message "t1e8gqXLbsU")).
Proof.
  split; [|split].
  - destruct (run_raises_plain_exception example_kwargs no_transcript_world example_tool
                "https://www.youtube.com/watch?v=t1e8gqXLbsU" "t1e8gqXLbsU"
                eq_refl eq_refl) as [H _].
    rewrite (H (mkExn "NoTranscriptFound" "No transcripts were found")
               (mkState (self example_tool)
                  [GetTranscript "t1e8gqXLbsU" (Some (VList [VStr "en"]))]) eq_refl).
    reflexivity.
  - destruct (run_raises_plain_exception example_kwargs unavailable_world example_tool
                "https://www.youtube.com/watch?v=t1e8gqXLbsU" "t1e8gqXLbsU"
                eq_refl eq_refl) as [H _].
    rewrite (H (mkExn "VideoUnavailable" "The video is no longer available")
               (mkState (self example_tool)
                  [GetTranscript "t1e8gqXLbsU" (Some (VList [VStr "en"]))]) eq_refl).
    reflexivity.
  - destruct (run_raises_plain_exception example_kwargs no_items_world example_tool
                "https://www.youtube.com/watch?v=t1e8gqXLbsU" "t1e8gqXLbsU"
                eq_refl eq_refl) as (_ & H & _).
    destruct (H (VList (map segment_value example_segments))
                (mkState (self example_tool)
                   [GetTranscript "t1e8gqXLbsU" (Some (VList [VStr "en"]))])
                (map segment_value example_segments)
                (map seg_text example_segments)
                (map VFloat (map seg_duration example_segments))
                (VFloat 3.75) (VStr "KEY") VNone) as [H1 _].
    + reflexivity.
    + reflexivity.
    + repeat constructor.
    + repeat constructor.
    + vm_compute. reflexivity.
    + reflexivity.
    + reflexivity.
    + rewrite (H1 (VDict {[ "items" := VList [] ]}) (VList [])); reflexivity.
Defined.

(** ** The agent execution loop *)

Section AgentLoop.

Import Agent.

(** After the user append, a failed call leaves nothing else in memory. *)
Lemma failed_call_keeps_user_append cfg tool memory input user_input err memory' :
  validate_value (input_schema cfg) input = Valid user_input ->
  agent_loop cfg tool memory input = (Failed err, memory') ->
  memory' = memory ++ [mkMessage User user_input].
Proof.
  intros Hin. unfold agent_loop. rewrite Hin.
  destruct (client cfg _) as [raw|msg]; [|intros H; injection H as _ <-; reflexivity].
  destruct (parse_response cfg tool raw) as [[out|payload]|errs].
  - destruct tool; intros H; discriminate H.
  - destruct tool as [t|]; [|intros H; discriminate H].
    destruct (tool_run t payload) as [tool_out|e].
    + unfold follow_up. destruct (client cfg _) as [raw2|msg].
      * destruct (parse_response cfg (Some t) raw2); intros H; [discriminate H|].
        injection H as _ <-. reflexivity.
      * intros H. injection H as _ <-. reflexivity.
    + intros H. injection H as _ <-. reflexivity.
  - intros H. injection H as _ <-. reflexivity.
Qed.

Lemma stub_run cfg payload output memory input user_input :
  (forall request, client cfg request = Reply payload) ->
  validate_value (output_schema cfg) payload = Valid output ->
  validate_value (input_schema cfg) input = Valid user_input ->
  run cfg memory input =
    (Returned output, memory ++ [mkMessage User user_input; mkMessage Assistant output]).
Proof.
  intros Hstub Hout Hin. unfold run, agent_loop. rewrite Hin, Hstub.
  unfold parse_response. rewrite Hout. cbn [parsed_output].
  rewrite <- app_assoc. reflexivity.
Qed.

(** For an agent with a bound tool, a turn in which the tool is called leaves
    three entries: user, tool result, assistant. *)
Lemma tool_turn_appends_user_tool_assistant cfg t memory input user_input
      raw payload tool_out raw2 p :
  validate_value (input_schema cfg) input = Valid user_input ->
  let mem1 := memory ++ [mkMessage User user_input] in
  client cfg (build_request cfg (Some t) mem1) = Reply raw ->
  parse_response cfg (Some t) raw = Valid (ToolRequest payload) ->
  tool_run t payload = Ok tool_out ->
  client cfg (build_request cfg (Some t) (mem1 ++ [mkMessage Tool tool_out])) = Reply raw2 ->
  parse_response cfg (Some t) raw2 = Valid p ->
  agent_loop cfg (Some t) memory input =
    (Returned (parsed_output p),
     memory ++ [mkMessage User user_input; mkMessage Tool tool_out;
                mkMessage Assistant (parsed_output p)]).
Proof.
  intros Hin mem1 Hreply Hreq Hrun Hreply2 Hp.
  unfold agent_loop. rewrite Hin. fold mem1. rewrite Hreply, Hreq, Hrun.
  unfold follow_up. rewrite Hreply2, Hp. unfold mem1.
  rewrite <- !app_assoc. reflexivity.
Qed.

End AgentLoop.

(** C3. With a model backend stub that always returns one payload that
    conforms to the agent's output schema, every call of the agent execution
    loop's [run] (on an input that conforms to the input schema) returns the
    validated payload, and conversation memory grows by exactly two entries, a
    user message followed by an assistant message; over any number of
    successive calls it grows by two entries per call. *)
Theorem stub_run_appends_user_then_assistant cfg payload output :
  (forall request, Agent.client cfg request = Agent.Reply payload) ->
  validate_value (Agent.output_schema cfg) payload = Valid output ->
  (forall memory input user_input,
     validate_value (Agent.input_schema cfg) input = Valid user_input ->
     Agent.run cfg memory input =
       (Agent.Returned output,
        memory ++ [Agent.mkMessage Agent.User user_input;
                   Agent.mkMessage Agent.Assistant output])) /\
  (forall inputs memory,
     Forall (fun input => exists user_input,
               validate_value (Agent.input_schema cfg) input = Valid user_input) inputs ->
     fst (Agent.run_calls cfg memory inputs) = map (fun _ => Agent.Returned output) inputs /\
     length (snd (Agent.run_calls cfg memory inputs)) = length memory + 2 * length inputs).
Proof.
  intros Hstub Hout. split.
  - intros memory input user_input Hin. eapply stub_run; eassumption.
  - intros inputs. induction inputs as [|input inputs IH]; intros memory Hall.
    + simpl. split; [reflexivity|lia].
    + apply Forall_cons in Hall as [[user_input Hin] Hall].
      simpl. rewrite (stub_run _ _ _ _ _ _ Hstub Hout Hin).
      specialize (IH (memory ++ [Agent.mkMessage Agent.User user_input;
                                  Agent.mkMessage Agent.Assistant output]) Hall).
      destruct (Agent.run_calls cfg _ inputs) as [outs memory'].
      simpl in *. destruct IH as [-> ->]. split; [reflexivity|].
      rewrite length_app. simpl. lia.
Qed.

(** The answer agent of the examples with a stub backend: one call. *)
Lemma stub_run_appends_user_then_assistant_witness :
  Agent.run (answer_agent (Agent.stub example_answer)) [] example_question =
    (Agent.Returned {[ "markdown_output" := VStr "A written record of speech." ]},
     [ Agent.mkMessage Agent.User {[ "question" := VStr "What is a transcript?" ]};
       Agent.mkMessage Agent.Assistant
         {[ "markdown_output" := VStr "A written record of speech." ]} ]).
Proof.
  destruct (stub_run_appends_user_then_assistant
              (answer_agent (Agent.stub example_answer)) example_answer
              {[ "markdown_output" := VStr "A written record of speech." ]}
              (fun _ => eq_refl) eq_refl) as [H _].
  exact (H [] example_question {[ "question" := VStr "What is a transcript?" ]} eq_refl).
Defined.

(** C4. Whenever, in a call of [run], the model backend returns a payload
    that fails output-schema validation -- as the answer to the request, or,
    for an agent with a bound tool, as the answer that follows the tool call
    -- [run] fails with [ModelOutputValidationError], and conversation memory
    afterwards is the memory before the call followed by the user message
    alone: no assistant entry and no tool entry of the failed turn. *)
Theorem invalid_model_output_keeps_only_user_append cfg memory input user_input :
  validate_value (Agent.input_schema cfg) input = Valid user_input ->
  let mem1 := memory ++ [Agent.mkMessage Agent.User user_input] in
  (forall raw errs,
     Agent.client cfg (Agent.build_request cfg None mem1) = Agent.Reply raw ->
     validate_value (Agent.output_schema cfg) raw = Invalid errs ->
     Agent.run cfg memory input =
       (Agent.Failed (Agent.ModelOutputValidationError errs raw), mem1)) /\
  (forall tool raw errs,
     Agent.client cfg (Agent.build_request cfg tool mem1) = Agent.Reply raw ->
     Agent.parse_response cfg tool raw = Invalid errs ->
     Agent.agent_loop cfg tool memory input =
       (Agent.Failed (Agent.ModelOutputValidationError errs raw), mem1)) /\
  (forall t raw payload tool_out raw2 errs,
     Agent.client cfg (Agent.build_request cfg (Some t) mem1) = Agent.Reply raw ->
     Agent.parse_response cfg (Some t) raw = Valid (Agent.ToolRequest payload) ->
     Agent.tool_run t payload = Ok tool_out ->
     Agent.client cfg (Agent.build_request cfg (Some t)
                         (mem1 ++ [Agent.mkMessage Agent.Tool tool_out])) = Agent.Reply raw2 ->
     Agent.parse_response cfg (Some t) raw2 = Invalid errs ->
     Agent.agent_loop cfg (Some t) memory input =
       (Agent.Failed (Agent.ModelOutputValidationError errs raw2), mem1)) /\
  (forall tool err memory',
     Agent.agent_loop cfg tool memory input = (Agent.Failed err, memory') ->
     memory' = mem1).
Proof.
  intros Hin mem1. split; [|split; [|split]].
  - intros raw errs Hreply Hbad. unfold Agent.run, Agent.agent_loop.
    rewrite Hin. fold mem1. rewrite Hreply. unfold Agent.parse_response.
    rewrite Hbad. reflexivity.
  - intros tool raw errs Hreply Hbad. unfold Agent.agent_loop.
    rewrite Hin. fold mem1. rewrite Hreply, Hbad. reflexivity.
  - intros t raw payload tool_out raw2 errs Hreply Hreq Hrun Hreply2 Hbad.
    unfold Agent.agent_loop. rewrite Hin. fold mem1.
    rewrite Hreply, Hreq, Hrun. unfold Agent.follow_up.
    rewrite Hreply2, Hbad. reflexivity.
  - intros tool err memory' H.
    eapply failed_call_keeps_user_append; eassumption.
Qed.

(** The answer agent with a backend whose answer lacks the declared field,
    alone and after a call of the transcript tool. *)
Lemma invalid_model_output_keeps_only_user_append_witness :
  Agent.run (answer_agent (Agent.stub malformed_answer)) [] example_question =
    (Agent.Failed
       (Agent.ModelOutputValidationError
          [mkFieldError "markdown_output" TString Missing] malformed_answer),
     [ Agent.mkMessage Agent.User {[ "question" := VStr "What is a transcript?" ]} ]) /\
  snd (Agent.agent_loop (answer_agent tool_then_malformed)
         (Some (transcript_tool example_world example_tool)) [] example_question) =
    [ Agent.mkMessage Agent.User {[ "question" := VStr "What is a transcript?" ]} ].
Proof.
  destruct (invalid_model_output_keeps_only_user_append
              (answer_agent (Agent.stub malformed_answer)) [] example_question
              {[ "question" := VStr "What is a transcript?" ]} eq_refl) as [H _].
  split.
  - exact (H malformed_answer [mkFieldError "markdown_output" TString Missing]
             eq_refl eq_refl).
  - destruct (invalid_model_output_keeps_only_user_append
                (answer_agent tool_then_malformed) [] example_question
                {[ "question" := VStr "What is a transcript?" ]} eq_refl) as (_ & _ & H3 & _).
    rewrite (H3 (transcript_tool example_world example_tool)
               (VDict example_kwargs) example_kwargs example_output malformed_answer
               [mkFieldError "markdown_output" TString Missing]).
    + reflexivity.
    + reflexivity.
    + vm_compute. reflexivity.
    + vm_compute. reflexivity.
    + reflexivity.
    + reflexivity.
Defined.


(** * Further properties of the code *)

(** ** [extract_video_id]: what comes out *)

Lemma occurs_app_r sep s x : occurs sep s -> occurs sep (s +:+ x).
Proof.
  intros [a [b ->]]. exists a, (b +:+ x). rewrite !str_app_assoc. reflexivity.
Qed.

Lemma occursb_false sep s : occursb sep s = false -> ~ occurs sep s.
Proof.
  destruct sep as [|c0 sep'].
  - destruct s; discriminate.
  - induction s as [|c s IH]; intros H.
    + apply occurs_empty.
    + cbn [occursb] in H.
      destruct (strip_prefix (String c0 sep') (String c s)) eqn:E; [discriminate|].
      apply not_occurs_cons; auto.
Qed.

(** A string without ["v="] and without ["&"] is its own video id. *)
Lemma extract_video_id_clean s :
  ~ occurs "v=" s -> ~ occurs "&" s -> extract_video_id s = Ok s.
Proof.
  intros Hv Ha. apply video_id_spec_extract. exists s. split; right; auto.
Qed.

(** An ["&"] between two strings without ["v="] does not make one. *)
Lemma not_occurs_v_amp a b :
  ~ occurs "v=" a -> ~ occurs "v=" b -> ~ occurs "v=" (a +:+ "&" +:+ b).
Proof.
  induction a as [|c a IH]; intros Ha Hb H.
  - change ("" +:+ "&" +:+ b) with (String "&" b) in H.
    apply occurs_cons_inv in H as [[r E]|H]; [discriminate E|auto].
  - rewrite str_app_cons in H. apply occurs_cons_inv in H as [[r E]|H].
    + cbn [strip_prefix] in E. destruct (Ascii.eqb_spec "v"%char c) as [<-|]; [|discriminate].
      destruct a as [|d a].
      * discriminate E.
      * rewrite str_app_cons in E.
        destruct (Ascii.eqb_spec "="%char d) as [<-|]; [|discriminate].
        apply Ha. exists "", a. reflexivity.
    + apply IH; auto. intros H'. apply Ha, occurs_cons, H'.
Qed.

(** X1. The value [extract_video_id] returns never contains ["&"] or
    ["v="], and extracting from it again gives it back: the function is
    idempotent, and it leaves a bare video id alone. *)
Theorem extract_video_id_idempotent (url : string) :
  exists vid,
    extract_video_id url = Ok vid /\
    ~ occurs "&" vid /\
    ~ occurs "v=" vid /\
    extract_video_id vid = Ok vid.
Proof.
  destruct (after_last_exists "v" "=" url) as [t Ht].
  destruct (up_to_first_exists "&" "" t) as [v Hv].
  assert (Hnt : ~ occurs "v=" t).
  { destruct Ht as [[pre [_ H]]|[H ->]]; exact H. }
  assert (Ha : ~ occurs "&" v).
  { destruct Hv as [[post [_ H]]|[H ->]]; exact H. }
  assert (Hn : ~ occurs "v=" v).
  { destruct Hv as [[post [-> _]]|[_ ->]]; [|exact Hnt].
    intros H. apply Hnt, occurs_app_r, H. }
  exists v. split; [apply video_id_spec_extract; exists t; auto|].
  split; [exact Ha|]. split; [exact Hn|]. apply extract_video_id_clean; assumption.
Qed.

(** X2. For a watch URL, whatever stands before ["v="]: when the id has
    neither ["v="] nor ["&"] in it, the id is returned, alone or followed by
    further ["&"] parameters that do not contain ["v="]. *)
Theorem extract_video_id_watch_url (before id params : string) :
  ~ occurs "v=" id -> ~ occurs "&" id -> ~ occurs "v=" params ->
  extract_video_id (before +:+ "v=" +:+ id) = Ok id /\
  extract_video_id (before +:+ "v=" +:+ id +:+ "&" +:+ params) = Ok id.
Proof.
  intros Hv Ha Hp. split; apply video_id_spec_extract.
  - exists id. split; [left; exists before; auto|right; auto].
  - exists (id +:+ "&" +:+ params). split.
    + left. exists before. split; [reflexivity|]. apply not_occurs_v_amp; assumption.
    + left. exists params. auto.
Qed.

Lemma extract_video_id_watch_url_witness :
  extract_video_id ("https://www.youtube.com/watch?" +:+ "v=" +:+ "t1e8gqXLbsU") = Ok "t1e8gqXLbsU" /\
  extract_video_id ("https://www.youtube.com/watch?" +:+ "v=" +:+ "t1e8gqXLbsU" +:+ "&" +:+ "t=10s&list=PL1")
    = Ok "t1e8gqXLbsU".
Proof.
  apply (extract_video_id_watch_url "https://www.youtube.com/watch?" "t1e8gqXLbsU" "t=10s&list=PL1");
    apply occursb_false; reflexivity.
Defined.

(** ** [fetch_video_metadata]: the first item, and missing keys *)

Section MoreMetadata.

Import YouTubeTranscriptTool.

Variables (video_id : string) (w : world) (st : state) (key youtube : pyval).

Hypothesis Hkey : self st !! "api_key" = Some key.
Hypothesis Hbuild : w (calls st) (Build "youtube" "v3" key) = Ok youtube.

Local Abbreviation request := (VideosListExecute key "snippet" video_id).
Local Abbreviation after_request :=
  (mkState (self st) (calls st ++ [Build "youtube" "v3" key; request])).

(** [fetch_video_metadata] once the request has been answered. *)
Lemma fetch_video_metadata_answered response :
  w (calls st ++ [Build "youtube" "v3" key]) request = Ok response ->
  fetch_video_metadata video_id w st =
    match py_getitem response "items" with
    | Raise e => (Raise e, after_request)
    | Ok items =>
        if negb (py_truthy items)
        then (Raise (mkExn "Exception" (no_metadata_message video_id)), after_request)
        else
          match rbind (py_getitem0 items) (fun item => py_getitem item "snippet") with
          | Raise e => (Raise e, after_request)
          | Ok video_info =>
              match py_getitem video_info "title" with
              | Raise e => (Raise e, after_request)
              | Ok title =>
                  match py_getitem video_info "channelTitle" with
                  | Raise e => (Raise e, after_request)
                  | Ok channel =>
                      match py_getitem video_info "publishedAt" with
                      | Raise e => (Raise e, after_request)
                      | Ok published_at =>
                          (Ok {[ "id" := VStr video_id;
                                 "title" := title;
                                 "channel" := channel;
                                 "published_at" := published_at ]}, after_request)
                      end
                  end
              end
          end
    end.
Proof.
  intros Hexec.
  unfold fetch_video_metadata, bind, getattr, external, lift, raise, ret.
  rewrite Hkey. cbn [self calls]. rewrite Hbuild, Hexec. rewrite <- app_assoc. cbn [app].
  destruct (py_getitem response "items") as [items|e]; [|reflexivity].
  destruct (negb (py_truthy items)); [reflexivity|].
  destruct (py_getitem0 items) as [item|e]; [|reflexivity]. cbn [rbind].
  destruct (py_getitem item "snippet") as [info|e]; [|reflexivity].
  destruct (py_getitem info "title"); [|reflexivity].
  destruct (py_getitem info "channelTitle"); [|reflexivity].
  destruct (py_getitem info "publishedAt"); reflexivity.
Qed.

Lemma fetch_video_metadata_first_item response item others snippet title channel published_at :
  w (calls st ++ [Build "youtube" "v3" key]) request = Ok response ->
  py_getitem response "items" = Ok (VList (item :: others)) ->
  py_getitem item "snippet" = Ok snippet ->
  py_getitem snippet "title" = Ok title ->
  py_getitem snippet "channelTitle" = Ok channel ->
  py_getitem snippet "publishedAt" = Ok published_at ->
  fetch_video_metadata video_id w st =
    (Ok {[ "id" := VStr video_id;
           "title" := title;
           "channel" := channel;
           "published_at" := published_at ]}, after_request).
Proof.
  intros Hexec Hitems Hsnip Ht Hc Hp.
  rewrite (fetch_video_metadata_answered _ Hexec), Hitems.
  cbn [py_truthy negb py_getitem0 rbind]. rewrite Hsnip, Ht, Hc, Hp. reflexivity.
Qed.

End MoreMetadata.

(** X3. When the client is built and the request is answered with a
    non-empty list of items, [fetch_video_metadata] returns the title, channel
    and publication date of the first item's snippet under the id it was
    given, whatever the other items are; it has made exactly two calls, both
    with the tool's own [api_key], and asked for the part ["snippet"] of that
    id. *)
Theorem fetch_video_metadata_reads_first_item
    video_id (w : world) st key youtube response item others snippet title channel published_at :
  self st !! "api_key" = Some key ->
  w (calls st) (Build "youtube" "v3" key) = Ok youtube ->
  w (calls st ++ [Build "youtube" "v3" key])
    (VideosListExecute key "snippet" video_id) = Ok response ->
  py_getitem response "items" = Ok (VList (item :: others)) ->
  py_getitem item "snippet" = Ok snippet ->
  py_getitem snippet "title" = Ok title ->
  py_getitem snippet "channelTitle" = Ok channel ->
  py_getitem snippet "publishedAt" = Ok published_at ->
  YouTubeTranscriptTool.fetch_video_metadata video_id w st =
    (Ok {[ "id" := VStr video_id;
           "title" := title;
           "channel" := channel;
           "published_at" := published_at ]},
     mkState (self st)
       (calls st ++ [Build "youtube" "v3" key; VideosListExecute key "snippet" video_id])).
Proof.
  intros. eapply fetch_video_metadata_first_item; eassumption.
Qed.

(** The example response with a second item after the first. *)
Lemma fetch_video_metadata_reads_first_item_witness :
  fst (YouTubeTranscriptTool.fetch_video_metadata "t1e8gqXLbsU"
         two_items_world example_tool) =
    Ok {[ "id" := VStr "t1e8gqXLbsU";
          "title" := VStr "A title";
          "channel" := VStr "A channel";
          "published_at" := VStr "2024-01-01T00:00:00Z" ]}.
Proof.
  rewrite (fetch_video_metadata_reads_first_item "t1e8gqXLbsU" two_items_world example_tool
             (VStr "KEY") VNone two_items_response
             (VDict {[ "snippet" := example_snippet ]})
             [VDict {[ "snippet" := VStr "another item" ]}] example_snippet
             (VStr "A title") (VStr "A channel") (VStr "2024-01-01T00:00:00Z")
             eq_refl eq_refl eq_refl eq_refl eq_refl eq_refl eq_refl eq_refl).
  reflexivity.
Defined.

(** X4. A response that lacks a key the code subscripts is not reported as
    "no metadata found": [fetch_video_metadata] raises the [KeyError] of the
    first missing key -- ["items"], then ["snippet"] of the first item, then
    ["title"], ["channelTitle"], ["publishedAt"] of the snippet, in this
    order -- after the request has been made. *)
Theorem fetch_video_metadata_missing_key
    video_id (w : world) st key youtube (response : gmap string pyval) :
  self st !! "api_key" = Some key ->
  w (calls st) (Build "youtube" "v3" key) = Ok youtube ->
  w (calls st ++ [Build "youtube" "v3" key])
    (VideosListExecute key "snippet" video_id) = Ok (VDict response) ->
  let raises k :=
    YouTubeTranscriptTool.fetch_video_metadata video_id w st =
      (Raise (mkExn "KeyError" k),
       mkState (self st)
         (calls st ++ [Build "youtube" "v3" key; VideosListExecute key "snippet" video_id])) in
  (response !! "items" = None -> raises "items") /\
  (forall (item : gmap string pyval) others,
     response !! "items" = Some (VList (VDict item :: others)) ->
     (item !! "snippet" = None -> raises "snippet") /\
     (forall snippet : gmap string pyval,
        item !! "snippet" = Some (VDict snippet) ->
        (snippet !! "title" = None -> raises "title") /\
        (is_Some (snippet !! "title") -> snippet !! "channelTitle" = None ->
         raises "channelTitle") /\
        (is_Some (snippet !! "title") -> is_Some (snippet !! "channelTitle") ->
         snippet !! "publishedAt" = None -> raises "publishedAt"))).
Proof.
  intros Hkey Hbuild Hexec raises. unfold raises.
  rewrite (fetch_video_metadata_answered _ _ _ _ _ Hkey Hbuild _ Hexec).
  cbn [py_getitem]. split.
  - intros ->. reflexivity.
  - intros item others ->. cbn [py_truthy negb py_getitem0 rbind py_getitem]. split.
    + intros ->. reflexivity.
    + intros snippet ->. cbn [py_getitem]. split; [|split].
      * intros ->. reflexivity.
      * intros [t ->] ->. reflexivity.
      * intros [t ->] [c ->] ->. reflexivity.
Qed.

(** A response without ["items"], as an error body has none. *)
Lemma fetch_video_metadata_missing_key_witness :
  fst (YouTubeTranscriptTool.fetch_video_metadata "t1e8gqXLbsU"
         error_body_world example_tool) = Raise (mkExn "KeyError" "items").
Proof.
  destruct (fetch_video_metadata_missing_key "t1e8gqXLbsU" error_body_world
              example_tool (VStr "KEY") VNone error_body
              eq_refl eq_refl eq_refl) as [H _].
  rewrite (H eq_refl). reflexivity.
Defined.

(** ** [run]: the request it makes, and answers it can and cannot use *)

Section MoreRun.

Import YouTubeTranscriptTool.

Lemma get_transcript_call params video_id language (w : world) st :
  params !! "language" = Some language ->
  get_transcript params video_id w st =
    (w (calls st) (transcript_request video_id language),
     mkState (self st) (calls st ++ [transcript_request video_id language])).
Proof.
  intros Hl. unfold get_transcript, transcript_request, bind, lift, attr, external.
  rewrite Hl. destruct (py_truthy language); reflexivity.
Qed.

Lemma text_fields_segments segs : text_fields (map segment_value segs) (map seg_text segs).
Proof. induction segs as [|s segs IH]; constructor; [reflexivity|exact IH]. Qed.

Lemma duration_fields_segments segs :
  duration_fields (map segment_value segs) (map VFloat (map seg_duration segs)).
Proof. induction segs as [|s segs IH]; constructor; [reflexivity|exact IH]. Qed.

Lemma py_sum_floats_total py (ds : list float) :
  exists total,
    py_sum py (map VFloat ds) = Ok total /\
    coerce TNumber total = Some (VFloat (float_sum py ds)).
Proof.
  assert (H : exists total, py_sum py (map VFloat ds) = Ok total).
  { destruct py; unfold py_sum;
      (destruct ds as [|d ds]; cbn [map fold_left rbind]; [eauto|]).
    - change (py_add_num (VInt 0) (VFloat d)) with
        (rbind (float_of_Z 0) (fun f => Ok (VFloat (f + d)%float))).
      rewrite float_of_Z_0. cbn [rbind]. rewrite py_sum_floats_from. eauto.
    - change (sum_add (IntTotal 0) (VFloat d)) with
        (rbind (rbind (float_of_Z 0) (fun f => Ok (VFloat (f + d)%float)))
               (fun v => Ok (match v with VFloat f => FloatTotal f 0 | _ => ObjectTotal v end))).
      rewrite float_of_Z_0. cbn [rbind]. rewrite sum_add_floats_from. eauto. }
  destruct H as [total H]. exists total. split; [exact H|apply py_sum_floats, H].
Qed.

Lemma construct_output_ok (t : string) (total : pyval) (d : float) (m : gmap string pyval) :
  coerce TNumber total = Some (VFloat d) ->
  construct YouTubeTranscriptToolOutputSchema
    {[ "transcript" := VStr t; "duration" := total;
       "comments" := VList []; "metadata" := VDict m ]} =
  Ok {[ "transcript" := VStr t; "duration" := VFloat d;
        "comments" := VList []; "metadata" := VDict m ]}.
Proof.
  intros Hd.
  unfold construct, validate.
  cbn [validate_fields schema_fields YouTubeTranscriptToolOutputSchema].
  unfold check_field. cbn [f_name f_type f_default].
  set (kw := ({[ "transcript" := VStr t; "duration" := total;
                 "comments" := VList []; "metadata" := VDict m ]} : gmap string pyval)).
  assert (L1 : kw !! "transcript" = Some (VStr t)) by reflexivity.
  assert (L2 : kw !! "duration" = Some total) by reflexivity.
  assert (L3 : kw !! "comments" = Some (VList [])) by reflexivity.
  assert (L4 : kw !! "metadata" = Some (VDict m)) by reflexivity.
  rewrite L1, L2, L3, L4, Hd. reflexivity.
Qed.

(** [run] on a well-formed list of segments and a response with an item. *)
Lemma run_on_segments params (w : world) st url video_id language segs key youtube
      response item others snippet title channel published_at :
  params !! "video_url" = Some (VStr url) ->
  extract_video_id url = Ok video_id ->
  params !! "language" = Some language ->
  let fetch := transcript_request video_id language in
  let build := Build "youtube" "v3" key in
  let request := VideosListExecute key "snippet" video_id in
  w (calls st) fetch = Ok (VList (map segment_value segs)) ->
  self st !! "api_key" = Some key ->
  w (calls st ++ [fetch]) build = Ok youtube ->
  w (calls st ++ [fetch; build]) request = Ok response ->
  py_getitem response "items" = Ok (VList (item :: others)) ->
  py_getitem item "snippet" = Ok snippet ->
  py_getitem snippet "title" = Ok title ->
  py_getitem snippet "channelTitle" = Ok channel ->
  py_getitem snippet "publishedAt" = Ok published_at ->
  run params w st =
    (Ok {[ "transcript" := VStr (String.concat " " (map seg_text segs));
           "duration" := VFloat (float_sum (interpreter_of w) (map seg_duration segs));
           "comments" := VList [];
           "metadata" := VDict {[ "id" := VStr video_id;
                                  "title" := title;
                                  "channel" := channel;
                                  "published_at" := published_at ]} ]},
     mkState (self st) (calls st ++ [fetch; build; request])).
Proof.
  intros Hurl Hvid Hlang fetch build request Hfetch Hkey Hbuild Hexec Hitems Hsnip Ht Hc Hp.
  destruct (py_sum_floats_total (interpreter_of w) (map seg_duration segs))
    as (total & Hsum & Hco).
  pose proof (get_transcript_call params video_id language w st Hlang) as Hg.
  fold fetch in Hg. rewrite Hfetch in Hg.
  rewrite (run_reaches_metadata _ _ _ _ _ _ _ _ _ _ _ Hurl Hvid Hg eq_refl
             (text_fields_segments segs) (duration_fields_segments segs) Hsum).
  unfold bind.
  erewrite (fetch_video_metadata_first_item video_id w
              (mkState (self st) (calls st ++ [fetch])) key youtube).
  - unfold lift. rewrite (construct_output_ok _ _ _ _ Hco).
    rewrite (str_join_concat " " (map seg_text segs)).
    cbn [self calls]. rewrite <- app_assoc. reflexivity.
  - exact Hkey.
  - exact Hbuild.
  - cbn [calls]. rewrite <- app_assoc. exact Hexec.
  - exact Hitems.
  - exact Hsnip.
  - exact Ht.
  - exact Hc.
  - exact Hp.
Qed.

Lemma rmapM_fails_at {A B} (f : A -> result B) good ys bad rest e :
  Forall2 (fun x y => f x = Ok y) good ys ->
  f bad = Raise e ->
  rmapM f (good ++ bad :: rest) = Raise e.
Proof.
  intros Hg Hb. induction Hg as [|x y l l' Hxy _ IH]; simpl.
  - rewrite Hb. reflexivity.
  - rewrite Hxy. cbn [rbind]. rewrite IH. reflexivity.
Qed.

(** [run] when reading the segments fails: at the texts, or, the texts being
    read and joined, at the durations. *)
Lemma run_fails_reading_texts params (w : world) st url video_id transcripts st1 e :
  params !! "video_url" = Some (VStr url) ->
  extract_video_id url = Ok video_id ->
  get_transcript params video_id w st = (Ok transcripts, st1) ->
  rbind (py_iter transcripts) (rmapM (fun t => py_getitem t "text")) = Raise e ->
  run params w st = (Raise e, st1).
Proof.
  intros Hurl Hvid Hfetch Hbad. unfold run.
  unfold bind at 1. unfold lift at 1, attr. rewrite Hurl. cbn [rbind as_str].
  unfold bind at 1. unfold lift at 1. rewrite Hvid.
  unfold bind at 1. unfold try_except. rewrite Hfetch.
  unfold bind at 1. unfold lift at 1. rewrite Hbad. reflexivity.
Qed.

Lemma run_fails_reading_durations params (w : world) st url video_id transcripts st1 segments texts e :
  params !! "video_url" = Some (VStr url) ->
  extract_video_id url = Ok video_id ->
  get_transcript params video_id w st = (Ok transcripts, st1) ->
  py_iter transcripts = Ok segments ->
  text_fields segments texts ->
  rmapM (fun t => py_getitem t "duration") segments = Raise e ->
  run params w st = (Raise e, st1).
Proof.
  intros Hurl Hvid Hfetch Hiter Htexts Hbad. unfold run.
  unfold bind at 1. unfold lift at 1, attr. rewrite Hurl. cbn [rbind as_str].
  unfold bind at 1. unfold lift at 1. rewrite Hvid.
  unfold bind at 1. unfold try_except. rewrite Hfetch.
  unfold bind at 1. unfold lift at 1. rewrite Hiter. cbn [rbind].
  rewrite (rmapM_Forall2 _ segments (map VStr texts)).
  2:{ apply Forall2_fmap_r. exact Htexts. }
  unfold bind at 1. unfold lift at 1. rewrite py_join_strings.
  unfold bind at 1. unfold lift at 1. rewrite Hbad. reflexivity.
Qed.

End MoreRun.

(** X5. On answers of the expected shape [run] succeeds: when the transcript
    API returns segments with a string text and a float duration each, the
    client is built and the metadata response has at least one item with a
    snippet carrying the three fields, [run] returns the texts joined by
    single spaces, the float sum of the durations as the interpreter at hand
    adds (one by one up to CPython 3.11, with compensated rounding from 3.12
    on), no comments and the four metadata fields, after exactly three calls:
    the fetch, the client, the request. *)
Theorem run_succeeds_on_well_formed_answers
    params (w : world) st url video_id language segs key youtube
    response item others snippet title channel published_at :
  params !! "video_url" = Some (VStr url) ->
  extract_video_id url = Ok video_id ->
  params !! "language" = Some language ->
  let fetch := transcript_request video_id language in
  let build := Build "youtube" "v3" key in
  let request := VideosListExecute key "snippet" video_id in
  w (calls st) fetch = Ok (VList (map segment_value segs)) ->
  self st !! "api_key" = Some key ->
  w (calls st ++ [fetch]) build = Ok youtube ->
  w (calls st ++ [fetch; build]) request = Ok response ->
  py_getitem response "items" = Ok (VList (item :: others)) ->
  py_getitem item "snippet" = Ok snippet ->
  py_getitem snippet "title" = Ok title ->
  py_getitem snippet "channelTitle" = Ok channel ->
  py_getitem snippet "publishedAt" = Ok published_at ->
  YouTubeTranscriptTool.run params w st =
    (Ok {[ "transcript" := VStr (String.concat " " (map seg_text segs));
           "duration" := VFloat (float_sum (interpreter_of w) (map seg_duration segs));
           "comments" := VList [];
           "metadata" := VDict {[ "id" := VStr video_id;
                                  "title" := title;
                                  "channel" := channel;
                                  "published_at" := published_at ]} ]},
     mkState (self st) (calls st ++ [fetch; build; request])).
Proof.
  intros. eapply run_on_segments; eassumption.
Qed.

(** Three segments of 0.1, 0.2 and 0.3 seconds: a duration of
    0.6000000000000001 up to CPython 3.11, of 0.6 from CPython 3.12 on. *)
Lemma run_succeeds_on_well_formed_answers_witness :
  fst (YouTubeTranscriptTool.run example_kwargs (tenths_world CPython311) example_tool) =
    Ok (tenths_output 0x1.3333333333334p-1) /\
  fst (YouTubeTranscriptTool.run example_kwargs (tenths_world CPython312) example_tool) =
    Ok (tenths_output 0x1.3333333333333p-1).
Proof.
  split.
  - rewrite (run_succeeds_on_well_formed_answers example_kwargs (tenths_world CPython311)
               example_tool
               "https://www.youtube.com/watch?v=t1e8gqXLbsU" "t1e8gqXLbsU" (VStr "en")
               tenths_segments (VStr "KEY") VNone example_response
               (VDict {[ "snippet" := example_snippet ]}) [] example_snippet
               (VStr "A title") (VStr "A channel") (VStr "2024-01-01T00:00:00Z")
               eq_refl eq_refl eq_refl eq_refl eq_refl eq_refl eq_refl eq_refl eq_refl
               eq_refl eq_refl eq_refl).
    vm_compute. reflexivity.
  - rewrite (run_succeeds_on_well_formed_answers example_kwargs (tenths_world CPython312)
               example_tool
               "https://www.youtube.com/watch?v=t1e8gqXLbsU" "t1e8gqXLbsU" (VStr "en")
               tenths_segments (VStr "KEY") VNone example_response
               (VDict {[ "snippet" := example_snippet ]}) [] example_snippet
               (VStr "A title") (VStr "A channel") (VStr "2024-01-01T00:00:00Z")
               eq_refl eq_refl eq_refl eq_refl eq_refl eq_refl eq_refl eq_refl eq_refl
               eq_refl eq_refl eq_refl).
    vm_compute. reflexivity.
Defined.

(** X6. An empty transcript is not an error: when the transcript API returns
    the empty list, [run] returns the empty string as transcript and the
    float zero as duration (the integer [0] that [sum] gives, converted by the
    output schema), with the metadata as usual. *)
Theorem run_on_empty_transcript
    params (w : world) st url video_id language key youtube
    response item others snippet title channel published_at :
  params !! "video_url" = Some (VStr url) ->
  extract_video_id url = Ok video_id ->
  params !! "language" = Some language ->
  let fetch := transcript_request video_id language in
  let build := Build "youtube" "v3" key in
  let request := VideosListExecute key "snippet" video_id in
  w (calls st) fetch = Ok (VList []) ->
  py_sum (interpreter_of w) [] = Ok (VInt 0) /\
  (self st !! "api_key" = Some key ->
   w (calls st ++ [fetch]) build = Ok youtube ->
   w (calls st ++ [fetch; build]) request = Ok response ->
   py_getitem response "items" = Ok (VList (item :: others)) ->
   py_getitem item "snippet" = Ok snippet ->
   py_getitem snippet "title" = Ok title ->
   py_getitem snippet "channelTitle" = Ok channel ->
   py_getitem snippet "publishedAt" = Ok published_at ->
   fst (YouTubeTranscriptTool.run params w st) =
     Ok {[ "transcript" := VStr "";
           "duration" := VFloat 0;
           "comments" := VList [];
           "metadata" := VDict {[ "id" := VStr video_id;
                                  "title" := title;
                                  "channel" := channel;
                                  "published_at" := published_at ]} ]}).
Proof.
  intros Hurl Hvid Hlang fetch build request Hfetch.
  split; [destruct (interpreter_of w); reflexivity|].
  intros Hkey Hbuild Hexec Hitems Hsnip Ht Hc Hp.
  rewrite (run_on_segments params w st url video_id language [] key youtube
             response item others snippet title channel published_at
             Hurl Hvid Hlang Hfetch Hkey Hbuild Hexec Hitems Hsnip Ht Hc Hp).
  destruct (interpreter_of w); reflexivity.
Qed.

Lemma run_on_empty_transcript_witness :
  fst (YouTubeTranscriptTool.run example_kwargs
         empty_transcript_world example_tool) =
    Ok {[ "transcript" := VStr "";
          "duration" := VFloat 0;
          "comments" := VList [];
          "metadata" := VDict {[ "id" := VStr "t1e8gqXLbsU";
                                 "title" := VStr "A title";
                                 "channel" := VStr "A channel";
                                 "published_at" := VStr "2024-01-01T00:00:00Z" ]} ]}.
Proof.
  destruct (run_on_empty_transcript example_kwargs empty_transcript_world example_tool
              "https://www.youtube.com/watch?v=t1e8gqXLbsU" "t1e8gqXLbsU" (VStr "en")
              (VStr "KEY") VNone example_response
              (VDict {[ "snippet" := example_snippet ]}) [] example_snippet
              (VStr "A title") (VStr "A channel") (VStr "2024-01-01T00:00:00Z")
              eq_refl eq_refl eq_refl eq_refl) as [_ H].
  apply H; reflexivity.
Defined.

Section RunRequests.

Import YouTubeTranscriptTool.

(** The calls of [run] begin with the transcript request. *)
Lemma run_first_call params (w : world) st url video_id language :
  params !! "video_url" = Some (VStr url) ->
  extract_video_id url = Ok video_id ->
  params !! "language" = Some language ->
  exists rest,
    calls (snd (run params w st)) = calls st ++ transcript_request video_id language :: rest.
Proof.
  intros Hurl Hvid Hlang. unfold run.
  unfold bind at 1. unfold lift at 1, attr. rewrite Hurl. cbn [rbind as_str].
  unfold bind at 1. unfold lift at 1. rewrite Hvid.
  unfold bind at 1. unfold try_except.
  rewrite (get_transcript_call _ _ _ _ _ Hlang).
  set (c := transcript_request video_id language).
  destruct (w (calls st) c) as [transcripts|e].
  - unfold fetch_video_metadata, bind, lift, builtins_sum, external, getattr, raise, ret.
    cbn zeta.
    repeat (match goal with
            | |- context [match ?x with _ => _ end] =>
                lazymatch x with
                | context [match _ with _ => _ end] => fail
                | _ => destruct x eqn:?
                end
            end; cbn [fst snd self calls]);
      rewrite <- ?app_assoc; cbn [app]; eexists; reflexivity.
  - destruct (caught e); cbn; exists []; reflexivity.
Qed.

End RunRequests.

(** X7. The first call of [run] is the transcript request for the extracted
    video id, and an empty language counts as none: for a language that is
    [None] or the empty string the transcript is requested without a
    [languages] argument, for any other string with that one language. *)
Theorem run_requests_transcript_first params (w : world) st url video_id language :
  params !! "video_url" = Some (VStr url) ->
  extract_video_id url = Ok video_id ->
  params !! "language" = Some language ->
  (exists rest,
     calls (snd (YouTubeTranscriptTool.run params w st)) =
       calls st ++ transcript_request video_id language :: rest) /\
  (language = VNone \/ language = VStr "" ->
   transcript_request video_id language = GetTranscript video_id None) /\
  (forall code, language = VStr code -> code <> "" ->
   transcript_request video_id language = GetTranscript video_id (Some (VList [VStr code]))).
Proof.
  intros Hurl Hvid Hlang. split; [eapply run_first_call; eassumption|]. split.
  - intros [->| ->]; reflexivity.
  - intros code -> Hne. unfold transcript_request. cbn [py_truthy].
    destruct (String.eqb_spec code ""); [contradiction|reflexivity].
Qed.

(** The example input with an empty language. *)
Lemma run_requests_transcript_first_witness :
  calls (snd (YouTubeTranscriptTool.run empty_language_kwargs
                no_transcript_world example_tool)) =
    [GetTranscript "t1e8gqXLbsU" None].
Proof.
  destruct (run_requests_transcript_first empty_language_kwargs
              no_transcript_world example_tool
              "https://www.youtube.com/watch?v=t1e8gqXLbsU" "t1e8gqXLbsU" (VStr "")
              eq_refl eq_refl eq_refl) as (_ & H & _).
  rewrite <- (H (or_intror eq_refl)). reflexivity.
Defined.

(** X8. A transcript that cannot be read costs no metadata request: when the
    fetch is answered with a list in which some segment has no ["text"] key
    (the segments before it having one), or in which every segment has a
    string text but some segment has no ["duration"] key, [run] raises the
    [KeyError] for that key and the transcript fetch remains the only call
    made. *)
Theorem run_stops_at_unreadable_segment
    params (w : world) st url video_id language good (bad : gmap string pyval) rest :
  params !! "video_url" = Some (VStr url) ->
  extract_video_id url = Ok video_id ->
  params !! "language" = Some language ->
  let fetch := transcript_request video_id language in
  w (calls st) fetch = Ok (VList (good ++ VDict bad :: rest)) ->
  (forall texts,
     text_fields good texts -> bad !! "text" = None ->
     YouTubeTranscriptTool.run params w st =
       (Raise (mkExn "KeyError" "text"), mkState (self st) (calls st ++ [fetch]))) /\
  (forall texts durations,
     text_fields (good ++ VDict bad :: rest) texts ->
     duration_fields good durations -> bad !! "duration" = None ->
     YouTubeTranscriptTool.run params w st =
       (Raise (mkExn "KeyError" "duration"), mkState (self st) (calls st ++ [fetch]))).
Proof.
  intros Hurl Hvid Hlang fetch Hfetch.
  pose proof (get_transcript_call params video_id language w st Hlang) as Hg.
  fold fetch in Hg. rewrite Hfetch in Hg. split.
  - intros texts Htexts Hbad.
    apply (run_fails_reading_texts _ _ _ _ _ _ _ _ Hurl Hvid Hg).
    cbn [py_iter rbind].
    apply (rmapM_fails_at _ good (map VStr texts)).
    + apply Forall2_fmap_r. exact Htexts.
    + cbn [py_getitem]. rewrite Hbad. reflexivity.
  - intros texts durations Htexts Hdurs Hbad.
    apply (run_fails_reading_durations _ _ _ _ _ _ _ _ texts _ Hurl Hvid Hg eq_refl Htexts).
    apply (rmapM_fails_at _ good durations).
    + exact Hdurs.
    + cbn [py_getitem]. rewrite Hbad. reflexivity.
Qed.

(** A second segment that has lost its text. *)
Lemma run_stops_at_unreadable_segment_witness :
  YouTubeTranscriptTool.run example_kwargs lost_text_world example_tool =
    (Raise (mkExn "KeyError" "text"),
     mkState (self example_tool) [GetTranscript "t1e8gqXLbsU" (Some (VList [VStr "en"]))]).
Proof.
  destruct (run_stops_at_unreadable_segment example_kwargs lost_text_world example_tool
              "https://www.youtube.com/watch?v=t1e8gqXLbsU" "t1e8gqXLbsU" (VStr "en")
              [segment_value (mkSegment "hello" 0 1.5)] segment_without_text []
              eq_refl eq_refl eq_refl eq_refl) as [H _].
  apply (H ["hello"]); [repeat constructor|reflexivity].
Defined.

(** X9. [run] never reads the environment, and it turns to the metadata
    service only after a transcript fetch that succeeded: among the calls of
    one [run] there is no [os.getenv], and a client construction or a
    metadata request is never the first call but comes after a transcript
    fetch that was answered. *)
Theorem run_reads_no_environment params (w : world) st :
  exists new,
    calls (snd (YouTubeTranscriptTool.run params w st)) = calls st ++ new /\
    count_calls is_getenv new = 0 /\
    forall before c after,
      new = before ++ c :: after ->
      is_client_build c = true \/ is_metadata_request c = true ->
      exists fetch rest,
        before = fetch :: rest /\
        is_transcript_fetch fetch = true /\
        is_ok (w (calls st) fetch) = true.
Proof.
  destruct (run_calls_shape params w st)
    as [H|[(vid & langs & H)|[(vid & langs & key & H & Ok1)|(vid & langs & key & H & Ok1 & Ok2)]]].
  - exists []. rewrite app_nil_r. split; [exact H|]. split; [reflexivity|].
    intros [|x before] c after E; discriminate E.
  - eexists. split; [exact H|]. split; [reflexivity|].
    intros before c after E Hc.
    destruct before as [|x [|y before]]; simplify_eq/=;
      try (destruct Hc; discriminate); try (destruct before; discriminate).
  - eexists. split; [exact H|]. split; [reflexivity|].
    intros before c after E Hc.
    destruct before as [|x [|y [|z before]]]; simplify_eq/=;
      try (destruct Hc; discriminate); try (destruct before; discriminate);
      eauto 6.
  - eexists. split; [exact H|]. split; [reflexivity|].
    intros before c after E Hc.
    destruct before as [|x [|y [|z [|u before]]]]; simplify_eq/=;
      try (destruct Hc; discriminate); try (destruct before; discriminate);
      eauto 6.
Qed.

(** ** The configuration, and the module run as a script *)

Section Configuration.

Import YouTubeTranscriptTool TranscriptScript.

(** Construction of the configuration: an omitted [api_key] takes the class
    default as it is, a string is kept, anything else is refused. *)
Lemma config_construct default_api_key (kwargs : gmap string pyval) :
  construct (YouTubeTranscriptToolConfig default_api_key) kwargs =
    match kwargs !! "api_key" with
    | None => Ok {[ "api_key" := default_api_key ]}
    | Some (VStr k) => Ok {[ "api_key" := VStr k ]}
    | Some _ => Raise (mkExn "ValidationError" "api_key")
    end.
Proof.
  unfold construct, validate.
  cbn [validate_fields schema_fields YouTubeTranscriptToolConfig].
  unfold check_field. cbn [f_name f_type f_default].
  destruct (kwargs !! "api_key") as [v|]; [|reflexivity].
  destruct v; reflexivity.
Qed.

(** The tool after [__init__] on a configuration with the key [k]. *)
Lemma init_with_key (k : pyval) (w : world) cs :
  __init__ {[ "api_key" := k ]} w (fresh cs) =
    (Ok tt, mkState {[ "api_key" := k; "config" := VDict {[ "api_key" := k ]} ]} cs).
Proof. reflexivity. Qed.

End Configuration.

(** X10. Run as a script with [YOUTUBE_API_KEY] unset, the module stops at
    the construction of the configuration: the explicit [api_key=None] is
    refused with a validation error naming [api_key] (whereas the same [None]
    as the class default would pass), and nothing but the two reads of the
    environment has happened -- no transcript fetch, no metadata request. *)
Theorem script_without_api_key (w : world) cs default_api_key api_key :
  w cs (Getenv "YOUTUBE_API_KEY") = Ok default_api_key ->
  w (cs ++ [Getenv "YOUTUBE_API_KEY"]) (Getenv "YOUTUBE_API_KEY") = Ok api_key ->
  (forall k, api_key <> VStr k) ->
  TranscriptScript.script w (YouTubeTranscriptTool.fresh cs) =
    (Raise (mkExn "ValidationError" "api_key"),
     mkState ∅ (cs ++ [Getenv "YOUTUBE_API_KEY"; Getenv "YOUTUBE_API_KEY"])) /\
  construct (YouTubeTranscriptTool.YouTubeTranscriptToolConfig api_key) ∅ =
    Ok {[ "api_key" := api_key ]}.
Proof.
  intros Hd Hk Hbad. split; [|apply config_construct].
  unfold TranscriptScript.script, YouTubeTranscriptTool.config_class_default.
  unfold bind at 1. unfold external at 1. cbn [YouTubeTranscriptTool.fresh self calls].
  rewrite Hd.
  unfold bind at 1. unfold external at 1. cbn [self calls]. rewrite Hk.
  unfold bind at 1. unfold lift at 1. rewrite config_construct.
  rewrite lookup_singleton_eq. rewrite <- app_assoc.
  destruct api_key; try reflexivity. exfalso. eapply Hbad. reflexivity.
Qed.

(** The example world: the variable is not set. *)
Lemma script_without_api_key_witness :
  TranscriptScript.script example_world (YouTubeTranscriptTool.fresh []) =
    (Raise (mkExn "ValidationError" "api_key"),
     mkState ∅ [Getenv "YOUTUBE_API_KEY"; Getenv "YOUTUBE_API_KEY"]).
Proof.
  destruct (script_without_api_key example_world [] VNone VNone eq_refl eq_refl) as [H _].
  - discriminate.
  - exact H.
Defined.

(** X11. Run as a script with [YOUTUBE_API_KEY] set, the module runs the tool
    on its example URL with language ["en"], and the key the tool holds is
    the value read in the [__main__] block, whatever the class default read
    earlier was. *)
Theorem script_uses_the_key_read_at_run_time (w : world) cs default_api_key k :
  w cs (Getenv "YOUTUBE_API_KEY") = Ok default_api_key ->
  w (cs ++ [Getenv "YOUTUBE_API_KEY"]) (Getenv "YOUTUBE_API_KEY") = Ok (VStr k) ->
  TranscriptScript.script w (YouTubeTranscriptTool.fresh cs) =
    YouTubeTranscriptTool.run example_kwargs w
      (mkState {[ "api_key" := VStr k; "config" := VDict {[ "api_key" := VStr k ]} ]}
         (cs ++ [Getenv "YOUTUBE_API_KEY"; Getenv "YOUTUBE_API_KEY"])).
Proof.
  intros Hd Hk.
  unfold TranscriptScript.script, YouTubeTranscriptTool.config_class_default.
  unfold bind at 1. unfold external at 1. cbn [YouTubeTranscriptTool.fresh self calls].
  rewrite Hd.
  unfold bind at 1. unfold external at 1. cbn [self calls]. rewrite Hk.
  unfold bind at 1. unfold lift at 1. rewrite config_construct.
  rewrite lookup_singleton_eq.
  unfold bind at 1.
  change (mkState ∅ ((cs ++ [Getenv "YOUTUBE_API_KEY"]) ++ [Getenv "YOUTUBE_API_KEY"]))
    with (YouTubeTranscriptTool.fresh ((cs ++ [Getenv "YOUTUBE_API_KEY"]) ++ [Getenv "YOUTUBE_API_KEY"])).
  rewrite init_with_key. rewrite <- app_assoc. reflexivity.
Qed.

(** A world in which the variable is set after the class was defined. *)
Lemma script_uses_the_key_read_at_run_time_witness :
  fst (TranscriptScript.script key_set_late_world (YouTubeTranscriptTool.fresh [])) =
    Ok example_output /\
  calls (snd (TranscriptScript.script key_set_late_world (YouTubeTranscriptTool.fresh []))) =
    [ Getenv "YOUTUBE_API_KEY"; Getenv "YOUTUBE_API_KEY";
      GetTranscript "t1e8gqXLbsU" (Some (VList [VStr "en"]));
      Build "youtube" "v3" (VStr "LATE");
      VideosListExecute (VStr "LATE") "snippet" "t1e8gqXLbsU" ].
Proof.
  rewrite (script_uses_the_key_read_at_run_time key_set_late_world [] VNone "LATE"
             eq_refl eq_refl).
  split; vm_compute; reflexivity.
Defined.

(** X12. A configuration built without arguments is not checked: the tool
    built from it holds the class default as its key, whatever that is --
    [None] when the variable was unset while the class was defined -- and
    construction succeeds without any call; the missing key shows only when
    metadata is fetched, where that default is what the client is built
    with. *)
Theorem default_config_is_not_checked default_api_key (w : world) cs video_id :
  let tool :=
    mkState {[ "api_key" := default_api_key;
               "config" := VDict {[ "api_key" := default_api_key ]} ]} cs in
  TranscriptScript.default_tool default_api_key w (YouTubeTranscriptTool.fresh cs) =
    (Ok tt, tool) /\
  exists rest,
    calls (snd (YouTubeTranscriptTool.fetch_video_metadata video_id w tool)) =
      cs ++ Build "youtube" "v3" default_api_key :: rest.
Proof.
  intros tool. split.
  - unfold TranscriptScript.default_tool. unfold bind at 1. unfold lift at 1.
    rewrite config_construct, lookup_empty. apply init_with_key.
  - unfold YouTubeTranscriptTool.fetch_video_metadata.
    unfold bind at 1. unfold getattr at 1.
    assert (L : self tool !! "api_key" = Some default_api_key) by reflexivity.
    rewrite L.
    unfold bind at 1. unfold external at 1.
    destruct (w (calls tool) (Build "youtube" "v3" default_api_key)) as [youtube|e].
    + unfold bind, external, lift, raise, ret. cbn [self calls tool].
      repeat (match goal with
              | |- context [match ?x with _ => _ end] =>
                  lazymatch x with
                  | context [match _ with _ => _ end] => fail
                  | _ => destruct x eqn:?
                  end
              end; cbn [fst snd self calls]);
        rewrite <- ?app_assoc; cbn [app]; eexists; reflexivity.
    + exists []. reflexivity.
Qed.

(** ** The scripts that drive agents *)

Section Asking.

Import Agent Scripts.







End Asking.









Section ExitCommand.

Import Scripts.

Lemma ascii_lower_idempotent c : ascii_lower (ascii_lower c) = ascii_lower c.
Proof. destruct c as [[] [] [] [] [] [] [] []]; reflexivity. Qed.

Lemma str_lower_idempotent s : str_lower (str_lower s) = str_lower s.
Proof.
  induction s as [|c s IH]; [reflexivity|].
  cbn [str_lower]. rewrite ascii_lower_idempotent, IH. reflexivity.
Qed.

Lemma str_lower_length s : String.length (str_lower s) = String.length s.
Proof. induction s as [|c s IH]; [reflexivity|]. cbn [str_lower String.length]. rewrite IH. reflexivity. Qed.

End ExitCommand.

(** X17. The exit test ignores capitals and nothing else: a line and its
    lower-case form are treated alike, and a line that ends the chat has
    exactly four characters, so a command with a blank before or after it is
    an ordinary question for the agent. *)
Theorem is_exit_ignores_capitals_only (line : string) :
  Scripts.is_exit (Scripts.str_lower line) = Scripts.is_exit line /\
  (Scripts.is_exit line = true -> String.length line = 4) /\
  Scripts.is_exit "EXIT" = true /\ Scripts.is_exit "Quit" = true /\
  Scripts.is_exit "exit " = false.
Proof.
  split; [|split; [|repeat split]].
  - unfold Scripts.is_exit. rewrite str_lower_idempotent. reflexivity.
  - unfold Scripts.is_exit. cbn [existsb]. intros H.
    rewrite <- str_lower_length.
    destruct (String.eqb_spec (Scripts.str_lower line) "exit") as [->|]; [reflexivity|].
    destruct (String.eqb_spec (Scripts.str_lower line) "quit") as [->|]; [reflexivity|].
    discriminate H.
Qed.
